(** * angular-docs-sitemap: generate-sitemap.js

    A shallow embedding of the script [generate-sitemap.js].  The script
    has two parts.  Lines 1-27 create a [SitemapGenerator], register four
    event listeners and start the crawl.  Lines 28-45 read [sitemap.xml],
    parse it with xmldom's [DOMParser], collect the text content of every
    element returned by [getElementsByTagName('loc')], and write the
    collected strings, joined by a line feed, to [angular-docs-urls.txt].

    The file system is a finite map from paths to contents, the console is
    the list of lines printed so far, and every call that touches the file
    system, the generator or the event queue is recorded in a history.  The
    script is written in a state-and-exception monad over that world. *)

From Stdlib Require Import String Ascii List Arith Lia Bool.
From stdpp Require Import base option list gmap strings pretty.

Local Open Scope string_scope.
Local Open Scope list_scope.

(** ** The DOM values the script handles

    The script calls [getElementsByTagName], [length], indexing and
    [textContent] on what the parser returns.  These belong to the xmldom
    package, which implements the DOM Core interface and is not part of the
    repository; they are written here as that interface defines them. *)

Module DOM.

(** A node of the tree built by the parser.  [tagName] is the qualified
    name as written in the document, prefix included. *)
#[warnings="-register-all"]
Inductive Node : Type :=
| Element (tagName : string) (namespaceURI : option string)
          (attributes : list (string * string)) (childNodes : list Node)
| Text (data : string)
| CDATASection (data : string)
| Comment (data : string)
| ProcessingInstruction (target : string) (data : string)
| DocumentType (name : string).

Record Document : Type := { docChildNodes : list Node }.

Definition childNodes (n : Node) : list Node :=
  match n with
  | Element _ _ _ cs => cs
  | _ => []
  end.

Definition isElement (n : Node) : bool :=
  match n with
  | Element _ _ _ _ => true
  | _ => false
  end.

(** The test of [getElementsByTagName]: the node is an element, and
    the name asked for is the wildcard or equals [node.tagName]. *)
Definition hasTagName (tagName : string) (n : Node) : bool :=
  match n with
  | Element t _ _ _ => String.eqb tagName "*" || String.eqb t tagName
  | _ => false
  end.

(** [String.prototype.split] on one separator character. *)
Fixpoint split_on (sep : ascii) (s : string) : list string :=
  match s with
  | EmptyString => [EmptyString]
  | String c rest =>
      if Ascii.eqb c sep then EmptyString :: split_on sep rest
      else match split_on sep rest with
           | [] => [String c EmptyString]
           | piece :: pieces => String c piece :: pieces
           end
  end.

(** [createElementNS]: the qualified name is split at the colon; with
    exactly two pieces they are the prefix and the local name, otherwise
    the local name is the whole qualified name. *)
Definition prefixOf (qualifiedName : string) : option string :=
  match split_on ":" qualifiedName with
  | [p; _] => Some p
  | _ => None
  end.

Definition localNameOf (qualifiedName : string) : string :=
  match split_on ":" qualifiedName with
  | [_; l] => l
  | _ => qualifiedName
  end.

Definition localName (n : Node) : option string :=
  match n with
  | Element t _ _ _ => Some (localNameOf t)
  | _ => None
  end.

(** [_visitNode] with the callback of [getElementsByTagName]: the node is
    tested and pushed first, then its children are visited from the first
    to the last.  The callback never asks to stop. *)
Fixpoint visitNode (tagName : string) (node : Node) (ls : list Node)
  : list Node :=
  let ls := if hasTagName tagName node then ls ++ [node] else ls in
  match node with
  | Element _ _ _ cs => fold_left (fun acc c => visitNode tagName c acc) cs ls
  | _ => ls
  end.

(** [Document.prototype.getElementsByTagName]: the base is the document,
    which is not an element, so only its descendants can be pushed. *)
Definition getElementsByTagName (tagName : string) (doc : Document)
  : list Node :=
  fold_left (fun acc c => visitNode tagName c acc) (docChildNodes doc) [].

(** [getTextContent]: for an element, the text contents of its children
    other than comments and processing instructions, concatenated; for
    any other node its [nodeValue] (null for a document type, which is
    never reached from an element). *)
Fixpoint textContent (n : Node) : string :=
  match n with
  | Element _ _ _ cs =>
      String.concat ""
        (flat_map (fun c => match c with
                            | Comment _ | ProcessingInstruction _ _ => []
                            | _ => [textContent c]
                            end) cs)
  | Text d | CDATASection d | Comment d => d
  | ProcessingInstruction _ d => d
  | DocumentType _ => ""
  end.

End DOM.

Import DOM.

(** ** The world the script runs in *)

(** What a listener is called with: [add] and [ignore] pass the URL,
    [error] passes an object with a [url] and a [code], [done] passes
    nothing. *)
Inductive Payload : Type :=
| UrlArg (url : string)
| ErrorArg (url : string) (code : string)
| NoArg.

(** Every listener of the script is one [console.log] of a template
    string; a listener is represented by the line it prints. *)
Definition Listener : Type := Payload -> string.

Record Generator : Type := {
  uri : string;
  stripQuerystring : bool;
  listeners : list (string * Listener);
  running : bool
}.

(** The calls recorded in the history, in the order they happen. *)
Inductive Action : Type :=
| On (event : string)
| Start
| ReadFile (path : string)
| WriteFile (path : string)
| Emit (event : string)
| Finalize (path : string).

Record World : Type := {
  files : gmap string string;
  console : list string;
  generator : Generator;
  history : list Action
}.

Inductive Exception : Type :=
| NotFoundError (path : string)
| ParseError
| TypeError.

(** What a call of [parseFromString] can do: return a document, return
    [undefined], or throw. *)
Inductive ParseOutcome : Type :=
| Returns (doc : Document)
| ReturnsUndefined
| Throws.

(** Statements of the script: they change the world and either complete
    with a value or throw. *)
Definition Script (A : Type) : Type := World -> World * (Exception + A).

Definition ret {A} (a : A) : Script A := fun w => (w, inr a).

Definition throw {A} (e : Exception) : Script A := fun w => (w, inl e).

Definition bind {A B} (m : Script A) (k : A -> Script B) : Script B :=
  fun w =>
    match m w with
    | (w', inr a) => k a w'
    | (w', inl e) => (w', inl e)
    end.

Declare Scope script_scope.
Delimit Scope script_scope with script.
Notation "x <- m ;; k" := (bind m (fun x => k))
  (at level 100, m at next level, right associativity) : script_scope.
Notation "m ;; k" := (bind m (fun _ => k))
  (at level 100, right associativity) : script_scope.
Local Open Scope script_scope.

Definition record (a : Action) (w : World) : World :=
  {| files := files w; console := console w; generator := generator w;
     history := history w ++ [a] |}.

Definition set_files (fs : gmap string string) (w : World) : World :=
  {| files := fs; console := console w; generator := generator w;
     history := history w |}.

Definition set_generator (g : Generator) (w : World) : World :=
  {| files := files w; console := console w; generator := g;
     history := history w |}.

Definition print (line : string) (w : World) : World :=
  {| files := files w; console := console w ++ [line];
     generator := generator w; history := history w |}.

(** [console.log(line)] *)
Definition console_log (line : string) : Script unit :=
  fun w => (print line w, inr tt).

(** [fs.readFileSync(path, 'utf8')]: throws when the file does not exist. *)
Definition readFileSync (path : string) : Script string :=
  fun w =>
    match files w !! path with
    | Some content => (record (ReadFile path) w, inr content)
    | None => (record (ReadFile path) w, inl (NotFoundError path))
    end.

(** [fs.writeFileSync(path, data)]: creates the file or replaces its
    content. *)
Definition writeFileSync (path : string) (data : string) : Script unit :=
  fun w => (record (WriteFile path) (set_files (<[path := data]> (files w)) w),
            inr tt).

(** [SitemapGenerator(uri, { stripQuerystring })] *)
Definition SitemapGenerator (u : string) (strip : bool) : Script unit :=
  fun w => (set_generator {| uri := u; stripQuerystring := strip;
                             listeners := []; running := false |} w,
            inr tt).

(** [generator.on(event, listener)] *)
Definition generator_on (event : string) (l : Listener) : Script unit :=
  fun w =>
    let g := generator w in
    (record (On event)
       (set_generator {| uri := uri g; stripQuerystring := stripQuerystring g;
                         listeners := listeners g ++ [(event, l)];
                         running := running g |} w),
     inr tt).

(** Modelled from the spec: the crawling library is not part of the
    repository.  [generator.start()] starts an asynchronous crawl and has
    no return value; the crawl's events fire later, from the event loop. *)
Definition generator_start : Script unit :=
  fun w =>
    let g := generator w in
    (record Start
       (set_generator {| uri := uri g; stripQuerystring := stripQuerystring g;
                         listeners := listeners g; running := true |} w),
     inr tt).

(** The line feed of ['\n']. *)
Definition LF : string := String "010"%char EmptyString.

(** The [for] loop of lines 39-41: [i] runs from its start value while
    [i < urlNodes.length], and each round pushes [urlNodes[i].textContent].
    [rounds] bounds the rounds still to run; [extract_urls] starts it with
    the length of the node list, which the loop never exceeds. *)
Fixpoint for_loop (urlNodes : list Node) (rounds i : nat) (urls : list string)
  : list string :=
  match rounds with
  | 0 => urls
  | S rounds' =>
      match urlNodes !! i with
      | Some node => for_loop urlNodes rounds' (S i) (urls ++ [textContent node])
      | None => urls
      end
  end.

Definition extract_urls (urlNodes : list Node) : list string :=
  for_loop urlNodes (length urlNodes) 0 [].

(** The four listeners of lines 10-24. *)
Definition on_add : Listener := fun p =>
  match p with
  | UrlArg url => "Added: " +:+ url
  | _ => "Added: undefined"
  end.

Definition on_ignore : Listener := fun p =>
  match p with
  | UrlArg url => "Ignored: " +:+ url
  | _ => "Ignored: undefined"
  end.

Definition on_error : Listener := fun p =>
  match p with
  | ErrorArg url code => "Error: " +:+ url +:+ " (" +:+ code +:+ ")"
  | _ => "Error: undefined (undefined)"
  end.

Definition on_done : Listener := fun _ => "Sitemap generation completed!".

(** Lines 1-27: create the generator, register the listeners, start the
    crawler. *)
Definition producer : Script unit :=
  SitemapGenerator "https://angular.dev" false ;;
  generator_on "add" on_add ;;
  generator_on "ignore" on_ignore ;;
  generator_on "error" on_error ;;
  generator_on "done" on_done ;;
  generator_start.

(** ** The crawl, as the environment supplies it *)

Inductive CrawlEvent : Type :=
| Added (url : string)
| Ignored (url : string)
| Failed (url : string) (code : string).

(** Modelled from the spec: what the external crawler does once started.
    It emits [add], [ignore] and [error] events any number of times and, if
    it runs to its end, finalizes the sitemap file and then emits [done]
    exactly once.  [sitemap] is [None] for a crawl that never gets there. *)
Record Crawl : Type := {
  events : list CrawlEvent;
  sitemap : option string
}.

Definition eventName (e : CrawlEvent) : string :=
  match e with
  | Added _ => "add"
  | Ignored _ => "ignore"
  | Failed _ _ => "error"
  end.

Definition eventPayload (e : CrawlEvent) : Payload :=
  match e with
  | Added url | Ignored url => UrlArg url
  | Failed url code => ErrorArg url code
  end.

(** [emit(event, payload)]: the listeners registered for the event are
    called in the order of their registration. *)
Definition emit (event : string) (p : Payload) (w : World) : World :=
  fold_left
    (fun w' l => if String.eqb (fst l) event then print (snd l p) w' else w')
    (listeners (generator w))
    (record (Emit event) w).

Definition finalize (path : string) (content : string) (w : World) : World :=
  record (Finalize path) (set_files (<[path := content]> (files w)) w).

Definition deliver (c : Crawl) (w : World) : World :=
  if running (generator w) then
    let w1 := fold_left (fun w' e => emit (eventName e) (eventPayload e) w')
                        (events c) w in
    match sitemap c with
    | Some content => emit "done" NoArg (finalize "sitemap.xml" content w1)
    | None => w1
    end
  else w.

Definition boot (fs : gmap string string) : World :=
  {| files := fs; console := [];
     generator := {| uri := ""; stripQuerystring := false;
                     listeners := []; running := false |};
     history := [] |}.

(** ** A reader for the examples

    The theorems below hold for any parser.  To run the script on
    concrete files, this reader follows what xmldom's [DOMParser] does on
    the documents sitemaps are written in and on the slips it is known to
    recover from: it returns no document for an empty source; it keeps the
    text around the root element at the top of the document; it leaves
    unknown entity names and bare ampersands as written and replaces the
    five predefined entities and numeric character references; it treats a
    start tag that no end tag follows as an empty element; it skips an end
    tag that does not match the open element and keeps elements that are
    still open at the end of the input; it throws on a repeated attribute
    and on an end tag that matches only up to letter case.

    Strings are the bytes of the UTF-8 text.  [read] answers [None] for
    input outside what it covers (attributes without quotes or value,
    names with characters beyond ASCII, an unfinished comment or section,
    a document type with an internal subset, the XHTML namespace, and the
    like). *)

Module XmlReader.

Inductive Token : Type :=
| TOpen (name : string) (attrs : list (string * string)) (selfClosing : bool)
        (orphan : bool)
| TClose (name : string)
| TText (data : string)
| TTail (data : string)
| TCData (data : string)
| TComment (data : string)
| TPI (target : string) (data : string)
| TDoctype (name : string)
| TThrow.

Definition bytes (codes : list nat) : string :=
  fold_right (fun n s => String (ascii_of_nat n) s) EmptyString codes.

Fixpoint dropChars (n : nat) (s : string) : string :=
  match n, s with
  | S n', String _ rest => dropChars n' rest
  | _, _ => s
  end.

(** The text before the first occurrence of [pat] and the text after it. *)
Fixpoint cut (pat s : string) : option (string * string) :=
  if String.prefix pat s
  then Some (EmptyString, dropChars (String.length pat) s)
  else match s with
       | EmptyString => None
       | String c rest => prod_map (String c) id <$> cut pat rest
       end.

Definition occursIn (pat s : string) : bool :=
  match cut pat s with
  | Some _ => true
  | None => false
  end.

Fixpoint anyChar (f : ascii -> bool) (s : string) : bool :=
  match s with
  | EmptyString => false
  | String c rest => f c || anyChar f rest
  end.

Definition code (c : ascii) : nat := nat_of_ascii c.

Definition between (lo hi : nat) (c : ascii) : bool :=
  ((lo <=? code c) && (code c <=? hi))%nat.

Definition isQuote (c : ascii) : bool :=
  Ascii.eqb c "'" || Ascii.eqb c "034".

(** Inside a tag every character up to the blank counts as a space. *)
Definition isTagSpace (c : ascii) : bool := (code c <=? 32)%nat.

(** The ASCII characters of the regular expression class [\s]. *)
Definition isSpace (c : ascii) : bool :=
  between 9 13 c || Ascii.eqb c " ".

(** The class [\w]. *)
Definition isWord (c : ascii) : bool :=
  between 48 57 c || between 65 90 c || between 97 122 c || Ascii.eqb c "_".

(** The characters of [\s] beyond ASCII, as UTF-8. *)
Definition wideSpaces : list string :=
  map bytes
    ([[194; 160]; [225; 154; 128]; [226; 128; 168]; [226; 128; 169];
      [226; 128; 175]; [226; 129; 159]; [227; 128; 128]; [239; 187; 191]]
     ++ map (fun n => [226; 128; n]) (seq 128 11)).

(** Whether the text matches [^\s*$]. *)
Fixpoint allSpace (fuel : nat) (s : string) : bool :=
  match fuel, s with
  | _, EmptyString => true
  | 0, _ => false
  | S fuel', String c rest =>
      if isSpace c then allSpace fuel' rest
      else existsb (fun sp => String.prefix sp s
                              && allSpace fuel' (dropChars (String.length sp) s))
                   wideSpaces
  end.

Definition blank (s : string) : bool := allSpace (String.length s) s.

Fixpoint trimLeft (s : string) : string :=
  match s with
  | EmptyString => EmptyString
  | String c rest => if isSpace c then trimLeft rest else s
  end.

Definition trim (s : string) : string :=
  String.rev (trimLeft (String.rev (trimLeft s))).

Definition lower (c : ascii) : ascii :=
  if between 65 90 c then ascii_of_nat (code c + 32) else c.

Fixpoint lowercase (s : string) : string :=
  match s with
  | EmptyString => EmptyString
  | String c rest => String (lower c) (lowercase rest)
  end.

(** Names that a JavaScript object answers for without holding them;
    the reader does not cover documents that use them. *)
Definition inherited : list string :=
  ["constructor"; "hasOwnProperty"; "isPrototypeOf"; "propertyIsEnumerable";
   "toLocaleString"; "toString"; "valueOf"; "__proto__"; "__defineGetter__";
   "__defineSetter__"; "__lookupGetter__"; "__lookupSetter__"].

Definition isInherited (name : string) : bool :=
  existsb (String.eqb name) inherited.

Definition isNameStart (c : ascii) : bool :=
  between 65 90 c || between 97 122 c || Ascii.eqb c "_".

Definition isNameChar (c : ascii) : bool :=
  isNameStart c || between 48 57 c || Ascii.eqb c "-" || Ascii.eqb c ".".

Definition plainName (s : string) : bool :=
  match s with
  | EmptyString => false
  | String c rest => isNameStart c && negb (anyChar (fun d => negb (isNameChar d)) rest)
  end.

(** The shape of a tag or attribute name, over ASCII: a name, or two
    names joined by one colon. *)
Definition validName (s : string) : bool :=
  match split_on ":" s with
  | [n] => plainName n && negb (isInherited n)
  | [p; n] => plainName p && plainName n
              && negb (isInherited p) && negb (isInherited s)
  | _ => false
  end.

(** [parseInt] on a string of word characters.  [None] is NaN. *)
Definition digitValue (radix : nat) (c : ascii) : option nat :=
  let v := if between 48 57 c then Some (code c - 48)
           else if between 97 102 c then Some (code c - 87)
           else if between 65 70 c then Some (code c - 55)
           else None in
  match v with
  | Some n => if (n <? radix)%nat then Some n else None
  | None => None
  end.

Fixpoint digits (radix : nat) (s : string) (acc : option N) : option N :=
  match s with
  | EmptyString => acc
  | String c rest =>
      match digitValue radix c with
      | Some d =>
          digits radix rest
                 (Some (N.of_nat radix * default 0%N acc + N.of_nat d)%N)
      | None => acc
      end
  end.

Definition parseInt (s : string) : option N :=
  if String.prefix "0x" s || String.prefix "0X" s
  then digits 16 (dropChars 2 s) None
  else digits 10 s None.

(** The first [x] of the reference becomes [0x]. *)
Fixpoint hexMark (s : string) : string :=
  match s with
  | EmptyString => EmptyString
  | String c rest =>
      if Ascii.eqb c "x" then String "0" (String "x" rest)
      else String c (hexMark rest)
  end.

(** The UTF-8 bytes of a code point; a lone surrogate is written as the
    replacement character.  [None] beyond the last code point. *)
Definition utf8 (n : N) : option string :=
  let b (k : N) := N.to_nat k in
  if (n <? 128)%N then Some (bytes [b n])
  else if (n <? 2048)%N then
    Some (bytes [b (192 + n / 64)%N; b (128 + n mod 64)%N])
  else if ((55296 <=? n) && (n <=? 57343))%N then Some (bytes [239; 191; 189])
  else if (n <? 65536)%N then
    Some (bytes [b (224 + n / 4096)%N; b (128 + (n / 64) mod 64)%N;
                 b (128 + n mod 64)%N])
  else if (n <? 1114112)%N then
    Some (bytes [b (240 + n / 262144)%N; b (128 + (n / 4096) mod 64)%N;
                 b (128 + (n / 64) mod 64)%N; b (128 + n mod 64)%N])
  else None.

Definition entity (name : string) : option string :=
  if String.eqb name "lt" then Some "<"
  else if String.eqb name "gt" then Some ">"
  else if String.eqb name "amp" then Some "&"
  else if String.eqb name "apos" then Some "'"
  else if String.eqb name "quot" then Some (bytes [34])
  else None.

(** What a reference [&name;] or [&#name;] is replaced by. *)
Definition replacement (hash : bool) (name : string) : option string :=
  if hash then utf8 (default 0%N (parseInt (hexMark name)))
  else match entity name with
       | Some e => Some e
       | None => if isInherited name then None
                 else Some ("&" +:+ name +:+ ";")
       end.

(** Replaces the references of the shape [&#?\w+;]; anything else stays
    as written.  [pending] holds what has been read since an ampersand. *)
Fixpoint unescape (s : string) (pending : option (bool * string))
  : option string :=
  let written (p : bool * string) :=
    "&" +:+ (if fst p then "#" else EmptyString) +:+ snd p in
  match s with
  | EmptyString =>
      match pending with
      | None => Some EmptyString
      | Some p => Some (written p)
      end
  | String c rest =>
      match pending with
      | None =>
          if Ascii.eqb c "&" then unescape rest (Some (false, EmptyString))
          else String c <$> unescape rest None
      | Some (hash, name) =>
          if Ascii.eqb c "#" && negb hash && String.eqb name EmptyString
          then unescape rest (Some (true, EmptyString))
          else if isWord c
          then unescape rest (Some (hash, name +:+ String c EmptyString))
          else if Ascii.eqb c ";" && negb (String.eqb name EmptyString)
          then r ← replacement hash name;
               String.app r <$> unescape rest None
          else if Ascii.eqb c "&"
          then String.app (written (hash, name))
                 <$> unescape rest (Some (false, EmptyString))
          else String.app (written (hash, name))
                 <$> (String c <$> unescape rest None)
      end
  end.

(** The inside of a start tag up to its closing bracket, skipping quoted
    attribute values, and the text after the bracket. *)
Fixpoint scanTag (s : string) (quote : option ascii)
  : option (string * string) :=
  match s with
  | EmptyString => None
  | String c rest =>
      match quote with
      | Some q =>
          prod_map (String c) id <$>
            scanTag rest (if Ascii.eqb c q then None else quote)
      | None =>
          if Ascii.eqb c ">" then Some (EmptyString, rest)
          else if Ascii.eqb c "<" then None
          else prod_map (String c) id <$>
                 scanTag rest (if isQuote c then Some c else None)
      end
  end.

Inductive AttrState : Type :=
| Between
| InName (name : string)
| AfterName (name : string)
| AfterEq (name : string)
| InValue (name : string) (quote : ascii) (value : string).

Inductive Attrs : Type :=
| AttrList (attrs : list (string * string))
| Redefined.

Definition addAttr (a : string * string) (more : option Attrs) : option Attrs :=
  match more with
  | Some (AttrList l) => Some (AttrList (a :: l))
  | other => other
  end.

(** The attributes of a start tag, from left to right.  [seen] holds the
    names read so far in the tag; a name that comes again ends the reading
    with [Redefined]. *)
Fixpoint readAttrs (s : string) (st : AttrState) (seen : list string)
  : option Attrs :=
  match s with
  | EmptyString => match st with Between => Some (AttrList []) | _ => None end
  | String c rest =>
      match st with
      | Between =>
          if isTagSpace c then readAttrs rest Between seen
          else if Ascii.eqb c "=" || isQuote c then None
          else readAttrs rest (InName (String c EmptyString)) seen
      | InName n =>
          if Ascii.eqb c "=" then readAttrs rest (AfterEq n) seen
          else if isTagSpace c then readAttrs rest (AfterName n) seen
          else if isQuote c then None
          else readAttrs rest (InName (n +:+ String c EmptyString)) seen
      | AfterName n =>
          if Ascii.eqb c "=" then readAttrs rest (AfterEq n) seen
          else if isTagSpace c then readAttrs rest (AfterName n) seen
          else None
      | AfterEq n =>
          if isQuote c then readAttrs rest (InValue n c EmptyString) seen
          else if isTagSpace c then readAttrs rest (AfterEq n) seen
          else None
      | InValue n q v =>
          if Ascii.eqb c q then
            match unescape v None with
            | Some v' =>
                if existsb (String.eqb n) seen then Some Redefined
                else if validName n
                then addAttr (n, v') (readAttrs rest Between (n :: seen))
                else None
            | None => None
            end
          else readAttrs rest (InValue n q (v +:+ String c EmptyString)) seen
      end
  end.

(** The name of a tag and what follows the name. *)
Fixpoint splitName (space : ascii -> bool) (s : string) : string * string :=
  match s with
  | EmptyString => (EmptyString, EmptyString)
  | String c rest =>
      if space c then (EmptyString, s)
      else prod_map (String c) id (splitName space rest)
  end.

(** The end tag that decides whether a start tag is taken as an empty
    element: the full end tag if one follows the first start tag of that
    name, else any text that begins like it.  The choice made for a name is
    kept for the rest of the document. *)
Definition closer (name rest : string) (closeMap : list (string * string))
  : string :=
  match List.find (fun e => String.eqb (fst e) name) closeMap with
  | Some e => snd e
  | None => if occursIn ("</" +:+ name +:+ ">") rest
            then "</" +:+ name +:+ ">"
            else "</" +:+ name
  end.

Definition readStartTag (body rest : string) (closeMap : list (string * string))
  : option (Token * list (string * string)) :=
  let (body', selfClosing) :=
    match String.rev body with
    | String "/" r => (String.rev r, true)
    | _ => (body, false)
    end in
  let (name, more) := splitName isTagSpace body' in
  if negb (validName name) then None
  else
    match readAttrs more Between [] with
    | Some (AttrList attrs) =>
        if selfClosing then Some (TOpen name attrs true false, closeMap)
        else
          let pat := closer name rest closeMap in
          Some (TOpen name attrs false (negb (occursIn pat rest)),
                (name, pat) :: closeMap)
    | Some Redefined => Some (TThrow, closeMap)
    | None => None
    end.

(** A document type declaration without an internal subset: its name. *)
Definition readDoctype (body : string) : option string :=
  let (keyword, more) := splitName isSpace body in
  let (name, _) := splitName isSpace (trimLeft more) in
  if String.eqb (lowercase keyword) "!doctype"
     && negb (String.eqb more EmptyString)
     && negb (String.eqb name EmptyString)
     && negb (anyChar (fun c => Ascii.eqb c "[" || Ascii.eqb c "/"
                                || Ascii.eqb c "=" || isQuote c
                                || (128 <=? code c)%nat) name)
     && negb (anyChar (fun c => Ascii.eqb c "[" || (128 <=? code c)%nat) body)
  then Some name
  else None.

Fixpoint lex (fuel : nat) (s : string) (closeMap : list (string * string))
  : option (list Token) :=
  match fuel with
  | 0 => None
  | S fuel' =>
      match cut "<" s with
      | None => Some (if blank s then [] else [TTail s])
      | Some (String c text, _) =>
          text' ← unescape (String c text) None;
          cons (TText text')
            <$> lex fuel' (dropChars (String.length (String c text)) s) closeMap
      | Some (EmptyString, _) =>
          if String.prefix "<!--" s then
            '(c, rest) ← cut "-->" (dropChars 4 s);
            cons (TComment c) <$> lex fuel' rest closeMap
          else if String.prefix "<![CDATA[" s then
            '(c, rest) ← cut "]]>" (dropChars 9 s);
            cons (TCData c) <$> lex fuel' rest closeMap
          else if String.prefix "<!" s then
            '(body, rest) ← scanTag (dropChars 1 s) None;
            name ← readDoctype body;
            cons (TDoctype name) <$> lex fuel' rest closeMap
          else if String.prefix "<?" s then
            '(body, rest) ← cut "?>" (dropChars 1 s);
            if String.eqb body EmptyString
               || anyChar (fun c => (128 <=? code c)%nat) body then None
            else
              let (target, data) := splitName isSpace (dropChars 1 body) in
              cons (TPI target (trim data)) <$> lex fuel' rest closeMap
          else if String.prefix "</" s then
            '(name, rest) ← cut ">" (dropChars 2 s);
            if String.eqb name EmptyString
               || anyChar (fun c => isSpace c || Ascii.eqb c "<"
                                    || (128 <=? code c)%nat) name
            then None
            else cons (TClose name) <$> lex fuel' rest closeMap
          else
            '(body, rest) ← scanTag (dropChars 1 s) None;
            '(t, closeMap') ← readStartTag body rest closeMap;
            match t with
            | TThrow => Some [TThrow]
            | _ => cons t <$> lex fuel' rest closeMap'
            end
      end
  end.

(** An element that is still open: its name, its attributes, the
    namespace declarations in scope and the children read so far. *)
Record Frame : Type := {
  fName : string;
  fAttrs : list (string * string);
  fScope : list (string * string);
  fChildren : list Node
}.

Definition declared (attrs : list (string * string)) : list (string * string) :=
  flat_map (fun a =>
              if String.eqb (fst a) "xmlns" then [(EmptyString, snd a)]
              else if String.prefix "xmlns:" (fst a)
                   then [(dropChars 6 (fst a), snd a)]
                   else []) attrs.

Fixpoint lookupScope (scope : list (string * string)) (p : string)
  : option string :=
  match scope with
  | [] => None
  | (q, u) :: scope' => if String.eqb q p then Some u else lookupScope scope' p
  end.

(** The namespace of an element: that of its prefix, or the default
    namespace when it has none. *)
Definition resolve (scope : list (string * string)) (qualifiedName : string)
  : option string :=
  lookupScope scope (default EmptyString (prefixOf qualifiedName)).

Definition scopeOf (stack : list Frame) : list (string * string) :=
  match stack with
  | [] => [("xml", "http://www.w3.org/XML/1998/namespace")]
  | f :: _ => fScope f
  end.

Definition isXHTML (ns : option string) : bool :=
  match ns with
  | Some u => String.eqb u "http://www.w3.org/1999/xhtml"
  | None => false
  end.

(** Appends a finished node to the innermost open element, or to the
    document when no element is open. *)
Definition attach (n : Node) (stack : list Frame) (top : list Node)
  : list Frame * list Node :=
  match stack with
  | [] => ([], top ++ [n])
  | f :: stack' =>
      ({| fName := fName f; fAttrs := fAttrs f; fScope := fScope f;
          fChildren := fChildren f ++ [n] |} :: stack', top)
  end.

Definition frameElement (f : Frame) : Node :=
  Element (fName f) (resolve (fScope f) (fName f)) (fAttrs f) (fChildren f).

(** The elements still open at the end of the input stay in the tree
    with the children read so far. *)
Fixpoint closeInto (inner : list Node) (stack : list Frame) (top : list Node)
  : list Node :=
  match stack with
  | [] => top ++ inner
  | f :: stack' =>
      closeInto [Element (fName f) (resolve (fScope f) (fName f)) (fAttrs f)
                         (fChildren f ++ inner)]
                stack' top
  end.

Definition closeAll (stack : list Frame) (top : list Node) : list Node :=
  closeInto [] stack top.

(** Character data goes to the open element.  With none open it goes to
    the document once an element has been read, and before that only if
    it is blank. *)
Definition attachText (n : Node) (data : string) (started : bool)
    (stack : list Frame) (top : list Node) : list Frame * list Node :=
  match stack with
  | [] => if started || blank data then ([], top ++ [n]) else ([], top)
  | _ => attach n stack top
  end.

Fixpoint build (ts : list Token) (stack : list Frame) (top : list Node)
    (started : bool) : option ParseOutcome :=
  match ts with
  | [] => Some (Returns {| docChildNodes := closeAll stack top |})
  | t :: ts' =>
      match t with
      | TThrow => Some Throws
      | TTail d =>
          Some (Returns {| docChildNodes := closeAll stack top ++ [Text d] |})
      | TOpen name attrs selfClosing orphan =>
          let scope := declared attrs ++ scopeOf stack in
          if isXHTML (resolve scope name) then None
          else if selfClosing || orphan then
            let (stack', top') :=
              attach (Element name (resolve scope name) attrs []) stack top in
            build ts' stack' top' true
          else
            build ts' ({| fName := name; fAttrs := attrs; fScope := scope;
                          fChildren := [] |} :: stack) top true
      | TClose name =>
          match stack with
          | f :: stack0 =>
              if String.eqb (fName f) name then
                let (stack', top') := attach (frameElement f) stack0 top in
                build ts' stack' top' started
              else if String.eqb (lowercase (fName f)) (lowercase name)
              then Some Throws
              else build ts' stack top started
          | [] => build ts' stack top started
          end
      | TText d =>
          let (stack', top') := attachText (Text d) d started stack top in
          build ts' stack' top' started
      | TCData d =>
          if String.eqb d EmptyString then build ts' stack top started
          else
            let (stack', top') :=
              attachText (CDATASection d) d started stack top in
            build ts' stack' top' started
      | TComment d =>
          let (stack', top') := attach (Comment d) stack top in
          build ts' stack' top' started
      | TPI target d =>
          let (stack', top') :=
            attach (ProcessingInstruction target d) stack top in
          build ts' stack' top' started
      | TDoctype name =>
          let (stack', top') := attach (DocumentType name) stack top in
          build ts' stack' top' started
      end
  end.

Definition tokens (source : string) : option (list Token) :=
  lex (S (String.length source)) source [].

(** What the parser does with a source, where the reader covers it. *)
Definition read (source : string) : option ParseOutcome :=
  if String.eqb source EmptyString then Some ReturnsUndefined
  else ts ← tokens source; build ts [] [] false.

(** The reader as a parser.  Where [read] has no answer this one is
    arbitrary. *)
Definition parse (source : string) : ParseOutcome :=
  default Throws (read source).

(** The start tags not written as empty elements, and the end tags. *)
Definition tagCounts (source : string) : option (nat * nat) :=
  ts ← tokens source;
  Some (length (List.filter (fun t => match t with
                                      | TOpen _ _ false _ => true
                                      | _ => false
                                      end) ts),
        length (List.filter (fun t => match t with
                                      | TClose _ => true
                                      | _ => false
                                      end) ts)).

End XmlReader.

(** ** Documents and sitemaps *)

(** A node followed by its descendants, in document order. *)
Fixpoint subtree (n : Node) : list Node :=
  n :: match n with
       | Element _ _ _ cs => flat_map subtree cs
       | _ => []
       end.

(** All nodes below the document, in document order. *)
Definition descendants (doc : Document) : list Node :=
  flat_map subtree (docChildNodes doc).

(** The selection as the specification words it: the elements whose local
    name is the given one, whatever their prefix, in document order. *)
Definition elementsByLocalName (name : string) (doc : Document) : list Node :=
  List.filter (fun n => match localName n with
                        | Some l => String.eqb l name
                        | None => false
                        end)
              (descendants doc).

Definition rootElement (doc : Document) : option Node :=
  match List.filter isElement (docChildNodes doc) with
  | [r] => Some r
  | _ => None
  end.

(** The [url] entries of a sitemap, in document order. *)
Definition url_elements (doc : Document) : list Node :=
  match rootElement doc with
  | Some r => List.filter (hasTagName "url") (childNodes r)
  | None => []
  end.

Definition loc_children (u : Node) : list Node :=
  List.filter (hasTagName "loc") (childNodes u).

(** The text content of the [loc] child of a [url] entry. *)
Definition loc_text (u : Node) : string :=
  match loc_children u with
  | l :: _ => textContent l
  | [] => EmptyString
  end.

Definition mentionsLoc (n : Node) : bool :=
  existsb (hasTagName "loc") (subtree n).

(** A [url] entry has exactly one [loc] child, and no other [loc] element
    anywhere inside it. *)
Definition url_wf (u : Node) : bool :=
  Nat.eqb (length (loc_children u)) 1 &&
  forallb (fun c => if hasTagName "loc" c
                    then negb (existsb mentionsLoc (childNodes c))
                    else negb (mentionsLoc c))
          (childNodes u).

(** A sitemap document: the root element is [urlset], and every element
    directly below it is a well-formed [url] entry.  Character data,
    comments and processing instructions may stand between the entries. *)
Definition sitemap_doc (doc : Document) : bool :=
  match rootElement doc with
  | Some r =>
      hasTagName "urlset" r &&
      forallb (fun c => if isElement c then hasTagName "url" c && url_wf c
                        else true)
              (childNodes r)
  | None => false
  end.

Definition sitemapNS : string := "http://www.sitemaps.org/schemas/sitemap/0.9".

Definition url_entry (u : string) : Node :=
  Element "url" (Some sitemapNS) []
    [Element "loc" (Some sitemapNS) [] [Text u]].

(** The minimal sitemap document that holds the given strings as its
    [loc] values, in order. *)
Definition build_sitemap (urls : list string) : Document :=
  {| docChildNodes :=
       [Element "urlset" (Some sitemapNS) [("xmlns", sitemapNS)]
                (map url_entry urls)] |}.

(** ** Files and crawls used in the examples *)

Definition three_urls_xml : string :=
  "<?xml version='1.0' encoding='UTF-8'?>
<urlset xmlns='http://www.sitemaps.org/schemas/sitemap/0.9'>
  <url>
    <loc>https://angular.dev/</loc>
  </url>
  <url>
    <loc>https://angular.dev/guide/</loc>
  </url>
  <url>
    <loc>https://angular.dev/api/</loc>
  </url>
</urlset>".

Definition minimal_xml : string :=
  "<urlset xmlns='http://www.sitemaps.org/schemas/sitemap/0.9'><url><loc>https://angular.dev/</loc></url><url><loc>https://angular.dev/guide/?a=1&amp;b=2</loc></url></urlset>".

Definition no_loc_xml : string :=
  "<urlset xmlns='http://www.sitemaps.org/schemas/sitemap/0.9'></urlset>".

Definition blank_loc_xml : string :=
  "<urlset><url><loc>https://angular.dev/</loc></url><url><loc>   </loc></url><url><loc></loc></url></urlset>".

Definition prefixed_xml : string :=
  "<sm:urlset xmlns:sm='http://www.sitemaps.org/schemas/sitemap/0.9'><sm:url><sm:loc>https://angular.dev/</sm:loc></sm:url></sm:urlset>".

Definition unclosed_xml : string :=
  "<urlset><url><loc>https://angular.dev/</loc></url>".

Definition stale_xml : string :=
  "<urlset><url><loc>https://old.example/</loc></url></urlset>".

Definition fresh_xml : string :=
  "<urlset><url><loc>https://angular.dev/</loc></url></urlset>".

Definition disk (sitemap : string) : gmap string string :=
  {[ "sitemap.xml" := sitemap ]}.

(** A directory that holds an older URL list next to the sitemap. *)
Definition disk_with_output (sitemap : string) : gmap string string :=
  <["angular-docs-urls.txt" := "https://old.example/"]> (disk sitemap).

(** The documents the reader builds from the example files. *)
Definition parsed (source : string) : Document :=
  match XmlReader.parse source with
  | Returns doc => doc
  | _ => {| docChildNodes := [] |}
  end.

Definition three_urls_doc : Document :=
  Eval vm_compute in parsed three_urls_xml.

Definition no_loc_doc : Document :=
  Eval vm_compute in parsed no_loc_xml.

Definition blank_loc_doc : Document :=
  Eval vm_compute in parsed blank_loc_xml.

Definition prefixed_doc : Document :=
  Eval vm_compute in parsed prefixed_xml.

(** A directory with an older URL list and no sitemap. *)
Definition disk_without_sitemap : gmap string string :=
  {[ "angular-docs-urls.txt" := "https://old.example/" ]}.

Definition small_crawl : Crawl :=
  {| events := [Added "https://angular.dev/"]; sitemap := Some fresh_xml |}.

(** ** Vocabulary for the properties of the whole script *)

(** The text contents of the elements named [loc], at any depth, in
    document order. *)
Definition loc_texts (doc : Document) : list string :=
  map textContent (List.filter (hasTagName "loc") (descendants doc)).

(** Whether a character occurs in a string. *)
Fixpoint occurs (c : ascii) (s : string) : bool :=
  match s with
  | EmptyString => false
  | String c' rest => Ascii.eqb c' c || occurs c rest
  end.

(** The line that the listeners of lines 10-20 print for a crawl event. *)
Definition logLine (e : CrawlEvent) : string :=
  match e with
  | Added url => "Added: " +:+ url
  | Ignored url => "Ignored: " +:+ url
  | Failed url code => "Error: " +:+ url +:+ " (" +:+ code +:+ ")"
  end.

(** What the [done] listener of lines 22-24 prints, once, when the crawl
    gets to its end. *)
Definition doneLines (c : Crawl) : list string :=
  match sitemap c with
  | Some _ => ["Sitemap generation completed!"]
  | None => []
  end.

(** The listeners as lines 10-24 leave them. *)
Definition registered : list (string * Listener) :=
  [("add", on_add); ("ignore", on_ignore); ("error", on_error);
   ("done", on_done)].

Definition index_xml : string :=
  "<sitemapindex><sitemap><loc>https://angular.dev/a.xml</loc></sitemap><note><loc>https://angular.dev/b.xml</loc><loc>https://angular.dev/a.xml</loc></note></sitemapindex>".

Definition index_doc : Document :=
  Eval vm_compute in parsed index_xml.

Definition one_empty_loc_xml : string :=
  "<urlset><url><loc></loc></url></urlset>".

Definition one_empty_loc_doc : Document :=
  Eval vm_compute in parsed one_empty_loc_xml.

Definition fresh_doc : Document :=
  Eval vm_compute in parsed fresh_xml.

Definition empty_directory : gmap string string := ∅.

Definition unclosed_doc : Document :=
  Eval vm_compute in parsed unclosed_xml.

Definition repeated_attribute_xml : string :=
  "<urlset id='a' id='b'><url><loc>https://angular.dev/</loc></url></urlset>".

(** Lines 1-24: everything before the call of [start]. *)
Definition registration : Script unit :=
  SitemapGenerator "https://angular.dev" false ;;
  generator_on "add" on_add ;;
  generator_on "ignore" on_ignore ;;
  generator_on "error" on_error ;;
  generator_on "done" on_done.

(** The crawl as far as its event number [n], not yet at its end: the
    run of this crawl ends in the world in which event [n] of the whole
    crawl is emitted. *)
Definition upto (n : nat) (c : Crawl) : Crawl :=
  {| events := take n (events c); sitemap := None |}.

Definition busy_crawl : Crawl :=
  {| events := [Added "https://angular.dev/";
                Ignored "https://angular.dev/private";
                Failed "https://angular.dev/gone" "404";
                Added "https://angular.dev/guide/"];
     sitemap := Some fresh_xml |}.

(** ** The script *)

Section Program.

(** [new DOMParser().parseFromString(source, 'text/xml')] belongs to the
    xmldom package, which is not part of the repository: the parser is a
    parameter.  The call gives the script a document or [undefined], or
    throws a [ParseError]. *)
Variable parseFromString : string -> ParseOutcome.

Definition DOMParser_parseFromString (source : string)
  : Script (option Document) :=
  match parseFromString source with
  | Returns doc => ret (Some doc)
  | ReturnsUndefined => ret None
  | Throws => throw ParseError
  end.

(** [xmlDoc.getElementsByTagName(tagName)]: reading the method off
    [undefined] throws a [TypeError]. *)
Definition xmlDoc_getElementsByTagName (tagName : string)
    (xmlDoc : option Document) : Script (list Node) :=
  match xmlDoc with
  | Some doc => ret (getElementsByTagName tagName doc)
  | None => throw TypeError
  end.

(** Lines 28-45. *)
Definition extractor : Script unit :=
  sitemap <- readFileSync "sitemap.xml" ;;
  xmlDoc <- DOMParser_parseFromString sitemap ;;
  urlNodes <- xmlDoc_getElementsByTagName "loc" xmlDoc ;;
  let urls := extract_urls urlNodes in
  writeFileSync "angular-docs-urls.txt" (String.concat LF urls) ;;
  console_log ("Extracted " +:+ pretty (length urls) +:+ " URLs from the sitemap").

(** The whole file, top to bottom. *)
Definition main : Script unit :=
  producer ;; extractor.

(** One run of the program.  The top-level code runs to its end before
    the event loop delivers anything; an exception that escapes it ends the
    process, and the crawl it started is never delivered. *)
Definition run (c : Crawl) (fs : gmap string string)
  : World * option Exception :=
  match main (boot fs) with
  | (w, inr _) => (deliver c w, None)
  | (w, inl e) => (w, Some e)
  end.

End Program.

(** ** Selection and text collection *)

Lemma Node_nested_ind (P : Node -> Prop) :
  (forall t ns attrs cs, Forall P cs -> P (Element t ns attrs cs)) ->
  (forall d, P (Text d)) ->
  (forall d, P (CDATASection d)) ->
  (forall d, P (Comment d)) ->
  (forall t d, P (ProcessingInstruction t d)) ->
  (forall n, P (DocumentType n)) ->
  forall n, P n.
Proof.
  intros HE HT HC HM HP HD.
  fix IH 1.
  intros [t ns attrs cs | d | d | d | t d | n];
    [apply HE | apply HT | apply HC | apply HM | apply HP | apply HD].
  induction cs as [| c cs IHcs]; constructor; [apply IH | exact IHcs].
Qed.

Lemma fold_visit_filter (t : string) (cs : list Node) :
  Forall (fun c => forall acc,
            visitNode t c acc = acc ++ List.filter (hasTagName t) (subtree c)) cs ->
  forall acc,
    fold_left (fun acc c => visitNode t c acc) cs acc
    = acc ++ List.filter (hasTagName t) (flat_map subtree cs).
Proof.
  induction 1 as [| c cs Hc _ IH]; intros acc; simpl.
  - now rewrite app_nil_r.
  - rewrite Hc, IH, List.filter_app, app_assoc. reflexivity.
Qed.

Lemma visitNode_filter (t : string) (n : Node) (acc : list Node) :
  visitNode t n acc = acc ++ List.filter (hasTagName t) (subtree n).
Proof.
  revert acc. induction n as [t' ns attrs cs IH | d | d | d | t' d | nm]
    using Node_nested_ind; intros acc;
    try (simpl; now rewrite app_nil_r).
  change (visitNode t (Element t' ns attrs cs) acc)
    with (fold_left (fun a c => visitNode t c a) cs
            (if hasTagName t (Element t' ns attrs cs)
             then acc ++ [Element t' ns attrs cs] else acc)).
  rewrite (fold_visit_filter t cs IH).
  change (subtree (Element t' ns attrs cs))
    with (Element t' ns attrs cs :: flat_map subtree cs).
  cbn [List.filter].
  destruct (hasTagName t (Element t' ns attrs cs)).
  - now rewrite <- app_assoc.
  - reflexivity.
Qed.

Lemma getElementsByTagName_filter (t : string) (doc : Document) :
  getElementsByTagName t doc = List.filter (hasTagName t) (descendants doc).
Proof.
  unfold getElementsByTagName, descendants.
  rewrite fold_visit_filter; [reflexivity |].
  apply Forall_forall. intros c _ acc. apply visitNode_filter.
Qed.

Lemma hasTagName_loc_iff (n : Node) :
  hasTagName "loc" n = true <-> exists ns attrs cs, n = Element "loc" ns attrs cs.
Proof.
  split.
  - destruct n as [t ns attrs cs | | | | |]; try discriminate.
    intros H. apply String.eqb_eq in H. subst. eauto.
  - intros (ns & attrs & cs & ->). reflexivity.
Qed.

(** The loop pushes one string per node, in the order of the nodes. *)
Lemma for_loop_map (urlNodes : list Node) :
  forall rounds i urls,
    i + rounds = length urlNodes ->
    for_loop urlNodes rounds i urls
    = urls ++ map textContent (drop i urlNodes).
Proof.
  induction rounds as [| r IH]; intros i urls Hlen; simpl.
  - rewrite drop_ge by lia. now rewrite app_nil_r.
  - destruct (urlNodes !! i) as [node |] eqn:Hi.
    + rewrite IH by lia. rewrite <- app_assoc. f_equal.
      rewrite (drop_S _ _ _ Hi). reflexivity.
    + apply lookup_ge_None in Hi. lia.
Qed.

Lemma extract_urls_map (urlNodes : list Node) :
  extract_urls urlNodes = map textContent urlNodes.
Proof.
  unfold extract_urls. rewrite for_loop_map by lia. reflexivity.
Qed.

Lemma in_out_differ : "sitemap.xml" <> "angular-docs-urls.txt".
Proof. discriminate. Qed.


(** ** Sitemap documents *)

Lemma filter_existsb_false {A} (f : A -> bool) (l : list A) :
  existsb f l = false -> List.filter f l = [].
Proof.
  induction l as [| x l IH]; simpl; [reflexivity |].
  intros H. apply orb_false_iff in H as [Hx Hl]. rewrite Hx. auto.
Qed.

Lemma no_loc_below (cs : list Node) :
  existsb mentionsLoc cs = false ->
  List.filter (hasTagName "loc") (flat_map subtree cs) = [].
Proof.
  induction cs as [| c cs IH]; simpl; [reflexivity |].
  intros H. apply orb_false_iff in H as [Hc Hcs].
  rewrite List.filter_app, (filter_existsb_false _ _ Hc), IH by assumption.
  reflexivity.
Qed.

(** Below a well-formed [url] entry the only [loc] elements are its
    [loc] children. *)
Lemma loc_below_children (cs : list Node) :
  forallb (fun c => if hasTagName "loc" c
                    then negb (existsb mentionsLoc (childNodes c))
                    else negb (mentionsLoc c)) cs = true ->
  List.filter (hasTagName "loc") (flat_map subtree cs)
  = List.filter (hasTagName "loc") cs.
Proof.
  induction cs as [| c cs IH]; simpl; [reflexivity |].
  intros H. apply andb_true_iff in H as [Hc Hcs].
  rewrite List.filter_app, IH by assumption.
  destruct (hasTagName "loc" c) eqn:Hloc.
  - apply negb_true_iff in Hc.
    destruct c as [t ns attrs ccs | | | | |]; try discriminate Hloc.
    change (subtree (Element t ns attrs ccs))
      with (Element t ns attrs ccs :: flat_map subtree ccs).
    cbn [List.filter]. rewrite Hloc.
    simpl in Hc. now rewrite (no_loc_below _ Hc).
  - apply negb_true_iff in Hc.
    now rewrite (filter_existsb_false _ _ Hc).
Qed.

Lemma url_entry_loc (u : Node) :
  hasTagName "url" u = true ->
  url_wf u = true ->
  map textContent (List.filter (hasTagName "loc") (subtree u)) = [loc_text u].
Proof.
  intros Hurl Hwf.
  destruct u as [t ns attrs cs | | | | |]; try discriminate Hurl.
  simpl in Hurl. apply String.eqb_eq in Hurl. subst t.
  apply andb_true_iff in Hwf as [Hone Hcs].
  change (subtree (Element "url" ns attrs cs))
    with (Element "url" ns attrs cs :: flat_map subtree cs).
  cbn [List.filter]. change (hasTagName "loc" (Element "url" ns attrs cs)) with false.
  cbn iota. simpl childNodes in Hcs. rewrite (loc_below_children _ Hcs).
  unfold loc_text, loc_children in *. simpl childNodes in *.
  apply Nat.eqb_eq in Hone.
  destruct (List.filter (hasTagName "loc") cs) as [| l [| l' ls]];
    simpl in Hone; try discriminate. reflexivity.
Qed.

Lemma urlset_children_loc (cs : list Node) :
  forallb (fun c => if isElement c then hasTagName "url" c && url_wf c
                    else true) cs = true ->
  map textContent (List.filter (hasTagName "loc") (flat_map subtree cs))
  = map loc_text (List.filter (hasTagName "url") cs).
Proof.
  induction cs as [| c cs IH]; simpl; [reflexivity |].
  intros H. apply andb_true_iff in H as [Hc Hcs].
  rewrite List.filter_app, map_app, IH by assumption.
  destruct (isElement c) eqn:Hel.
  - apply andb_true_iff in Hc as [Hurl Hwf].
    rewrite Hurl, (url_entry_loc c Hurl Hwf). reflexivity.
  - destruct c; try discriminate Hel; reflexivity.
Qed.

Lemma loc_skips_non_elements (cs : list Node) :
  List.filter (hasTagName "loc") (flat_map subtree cs)
  = List.filter (hasTagName "loc") (flat_map subtree (List.filter isElement cs)).
Proof.
  induction cs as [| c cs IH]; simpl; [reflexivity |].
  rewrite List.filter_app, IH.
  destruct c as [t ns attrs ccs | | | | |]; simpl; try reflexivity.
  rewrite List.filter_app. now destruct (t =? "loc")%string.
Qed.

(** In a sitemap document the selected elements are the [loc] children
    of the [url] entries, entry by entry. *)
Lemma sitemap_loc_texts (doc : Document) :
  sitemap_doc doc = true ->
  map textContent (getElementsByTagName "loc" doc)
  = map loc_text (url_elements doc).
Proof.
  unfold sitemap_doc, url_elements. intros Hdoc.
  rewrite getElementsByTagName_filter. unfold descendants.
  rewrite loc_skips_non_elements.
  unfold rootElement in *.
  destruct (List.filter isElement (docChildNodes doc)) as [| r [| r' rs]];
    try discriminate Hdoc.
  apply andb_true_iff in Hdoc as [Hroot Hcs].
  destruct r as [t ns attrs cs | | | | |]; try discriminate Hroot.
  simpl in Hroot. apply String.eqb_eq in Hroot. subst t.
  simpl flat_map. rewrite app_nil_r.
  change (List.filter (hasTagName "loc")
            (Element "urlset" ns attrs cs :: flat_map subtree cs))
    with (List.filter (hasTagName "loc") (flat_map subtree cs)).
  simpl childNodes in *. now apply urlset_children_loc.
Qed.

Lemma build_sitemap_loc_texts (urls : list string) :
  map textContent (getElementsByTagName "loc" (build_sitemap urls)) = urls.
Proof.
  rewrite getElementsByTagName_filter.
  unfold descendants, build_sitemap. simpl flat_map. rewrite app_nil_r.
  change (List.filter (hasTagName "loc")
            (Element "urlset" (Some sitemapNS) [("xmlns", sitemapNS)]
                     (map url_entry urls)
             :: flat_map subtree (map url_entry urls)))
    with (List.filter (hasTagName "loc") (flat_map subtree (map url_entry urls))).
  induction urls as [| u urls IH]; [reflexivity |].
  cbn [map flat_map]. rewrite List.filter_app, map_app, IH.
  reflexivity.
Qed.

(** ** What the listeners print and what a crawl touches *)

Lemma emit_frame (event : string) (p : Payload) (w : World) :
  files (emit event p w) = files w /\
  generator (emit event p w) = generator w.
Proof.
  unfold emit.
  assert (H : forall ls w0,
             files (fold_left
                      (fun w' l => if String.eqb (fst l) event
                                   then print (snd l p) w' else w') ls w0)
             = files w0 /\
             generator (fold_left
                          (fun w' l => if String.eqb (fst l) event
                                       then print (snd l p) w' else w') ls w0)
             = generator w0).
  { induction ls as [| [name l] ls IH]; intros w0; [split; reflexivity |].
    cbn [fold_left fst snd]. destruct (IH (if (name =? event)%string
                                           then print (l p) w0 else w0)) as [-> ->].
    now destruct (name =? event)%string. }
  destruct (H (listeners (generator w)) (record (Emit event) w)) as [-> ->].
  split; reflexivity.
Qed.

(** With the four listeners in place every crawl event prints its own
    line and nothing else. *)
Lemma console_emit_event (e : CrawlEvent) (w : World) :
  listeners (generator w) = registered ->
  console (emit (eventName e) (eventPayload e) w) = console w ++ [logLine e].
Proof.
  intros H. unfold emit. rewrite H. destruct e; reflexivity.
Qed.

Lemma console_emit_done (w : World) :
  listeners (generator w) = registered ->
  console (emit "done" NoArg w) = console w ++ ["Sitemap generation completed!"].
Proof. intros H. unfold emit. rewrite H. reflexivity. Qed.

Lemma deliver_events (es : list CrawlEvent) (w : World) :
  listeners (generator w) = registered ->
  let w' := fold_left (fun w0 e => emit (eventName e) (eventPayload e) w0) es w in
  console w' = console w ++ map logLine es /\
  files w' = files w /\ generator w' = generator w.
Proof.
  revert w. induction es as [| e es IH]; intros w H; cbn zeta.
  - simpl. now rewrite app_nil_r.
  - cbn [fold_left map].
    destruct (emit_frame (eventName e) (eventPayload e) w) as [Hf Hg].
    assert (H' : listeners (generator (emit (eventName e) (eventPayload e) w))
                 = registered) by now rewrite Hg.
    destruct (IH _ H') as (Hc & Hf' & Hg').
    rewrite Hc, Hf', Hg', (console_emit_event e w H), Hf, Hg, <- app_assoc.
    auto.
Qed.

Lemma deliver_running (c : Crawl) (w : World) :
  running (generator w) = true ->
  listeners (generator w) = registered ->
  console (deliver c w) = console w ++ map logLine (events c) ++ doneLines c /\
  files (deliver c w)
  = match sitemap c with
    | Some content => <["sitemap.xml" := content]> (files w)
    | None => files w
    end.
Proof.
  intros Hrun Hls. unfold deliver, doneLines. rewrite Hrun.
  destruct (deliver_events (events c) w Hls) as (Hc & Hf & Hg).
  cbn zeta in *.
  set (w1 := fold_left _ (events c) w) in *.
  destruct (sitemap c) as [content |].
  - assert (Hls1 : listeners (generator (finalize "sitemap.xml" content w1))
                   = registered) by (simpl; now rewrite Hg).
    rewrite (console_emit_done _ Hls1).
    destruct (emit_frame "done" NoArg (finalize "sitemap.xml" content w1)) as [-> _].
    simpl. rewrite Hc, Hf, <- app_assoc. auto.
  - now rewrite app_nil_r.
Qed.

Lemma deliver_generator (c : Crawl) (w : World) :
  generator (deliver c w) = generator w.
Proof.
  unfold deliver. destruct (running (generator w)); [| reflexivity].
  assert (H : forall es w0,
             generator (fold_left
                          (fun w' e => emit (eventName e) (eventPayload e) w')
                          es w0) = generator w0).
  { induction es as [| e es IH]; intros w0; [reflexivity |].
    cbn [fold_left]. rewrite IH. apply emit_frame. }
  destruct (sitemap c) as [content |]; [| apply H].
  destruct (emit_frame "done" NoArg
              (finalize "sitemap.xml" content
                 (fold_left (fun w' e => emit (eventName e) (eventPayload e) w')
                            (events c) w))) as [_ ->].
  simpl. apply H.
Qed.

Section Properties.

Variable parseFromString : string -> ParseOutcome.

Local Abbreviation runExtractor := (extractor parseFromString).
Local Abbreviation runProgram := (run parseFromString).

(** What a successful run of lines 28-45 leaves behind. *)
Lemma extractor_success (w : World) (s : string) (doc : Document) :
  files w !! "sitemap.xml" = Some s ->
  parseFromString s = Returns doc ->
  let urls := map textContent (getElementsByTagName "loc" doc) in
  (runExtractor w).2 = inr tt /\
  files (runExtractor w).1
  = <["angular-docs-urls.txt" := String.concat LF urls]> (files w) /\
  console (runExtractor w).1
  = console w ++ ["Extracted " +:+ pretty (length urls) +:+ " URLs from the sitemap"] /\
  history (runExtractor w).1
  = history w ++ [ReadFile "sitemap.xml"; WriteFile "angular-docs-urls.txt"].
Proof.
  intros Hread Hparse urls.
  unfold extractor, bind, readFileSync, DOMParser_parseFromString.
  rewrite Hread, Hparse. cbn -[pretty String.concat].
  rewrite extract_urls_map. fold urls.
  repeat split. now rewrite <- app_assoc.
Qed.

Lemma extractor_undefined (w : World) (s : string) :
  files w !! "sitemap.xml" = Some s ->
  parseFromString s = ReturnsUndefined ->
  runExtractor w = (record (ReadFile "sitemap.xml") w, inl TypeError).
Proof.
  intros Hread Hparse.
  unfold extractor, bind, readFileSync, DOMParser_parseFromString.
  now rewrite Hread, Hparse.
Qed.

Lemma extractor_missing (w : World) :
  files w !! "sitemap.xml" = None ->
  runExtractor w = (record (ReadFile "sitemap.xml") w,
                 inl (NotFoundError "sitemap.xml")).
Proof.
  intros Hread.
  unfold extractor, bind, readFileSync. now rewrite Hread.
Qed.

Lemma extractor_rejected (w : World) (s : string) :
  files w !! "sitemap.xml" = Some s ->
  parseFromString s = Throws ->
  runExtractor w = (record (ReadFile "sitemap.xml") w, inl ParseError).
Proof.
  intros Hread Hparse.
  unfold extractor, bind, readFileSync, DOMParser_parseFromString.
  now rewrite Hread, Hparse.
Qed.

(** ** The Extractor, lines 28-45 *)

(** C1. For a sitemap document with N [url] entries the Extractor
    completes, the output file holds the N [loc] text contents in document
    order joined by single line feeds (the empty string when N = 0), no
    other file changes, and the reported count is N. *)
Theorem C1_output_is_loc_lines (w : World) (s : string) (doc : Document) :
  files w !! "sitemap.xml" = Some s ->
  parseFromString s = Returns doc ->
  sitemap_doc doc = true ->
  (runExtractor w).2 = inr tt /\
  files (runExtractor w).1
  = <["angular-docs-urls.txt" :=
        String.concat LF (map loc_text (url_elements doc))]> (files w) /\
  console (runExtractor w).1
  = console w ++ ["Extracted " +:+ pretty (length (url_elements doc))
                  +:+ " URLs from the sitemap"].
Proof.
  intros Hread Hparse Hdoc.
  destruct (extractor_success w s doc Hread Hparse) as (Hok & Hfiles & Hlog & _).
  rewrite (sitemap_loc_texts doc Hdoc) in Hfiles, Hlog.
  rewrite length_map in Hlog. auto.
Qed.

(** C2, as amended.  The Extractor fails with a [ParseError] exactly
    when the parser throws on the content of the input file, and then the
    file system is left as it was: the output file is neither created nor
    changed.  Whenever the parser returns a document instead, well formed
    or recovered, the Extractor completes and overwrites the output file
    with the [loc] texts of that document. *)
Theorem C2_parse_error_writes_nothing (w : World) (s : string) :
  files w !! "sitemap.xml" = Some s ->
  ((runExtractor w).2 = inl ParseError <-> parseFromString s = Throws) /\
  (parseFromString s = Throws -> files (runExtractor w).1 = files w) /\
  (forall doc, parseFromString s = Returns doc ->
     (runExtractor w).2 = inr tt /\
     files (runExtractor w).1 !! "angular-docs-urls.txt"
     = Some (String.concat LF (loc_texts doc))).
Proof.
  intros Hread.
  destruct (parseFromString s) as [doc | |] eqn:Hparse.
  - destruct (extractor_success w s doc Hread Hparse) as (Hok & Hfiles & _).
    split; [split; [rewrite Hok |]; discriminate |].
    split; [discriminate |].
    intros doc' Hdoc. injection Hdoc as <-.
    split; [exact Hok |]. rewrite Hfiles, lookup_insert_eq.
    unfold loc_texts. now rewrite getElementsByTagName_filter.
  - rewrite (extractor_undefined w s Hread Hparse).
    split; [split; discriminate |]. split; discriminate.
  - rewrite (extractor_rejected w s Hread Hparse).
    split; [split; reflexivity |]. split; [reflexivity | discriminate].
Qed.

(** C4. When the input file does not exist, the Extractor fails with a
    [NotFoundError] and the file system is left as it was: the output file
    is neither created nor changed. *)
Theorem C4_missing_input_writes_nothing (w : World) :
  files w !! "sitemap.xml" = None ->
  (runExtractor w).2 = inl (NotFoundError "sitemap.xml") /\
  files (runExtractor w).1 = files w.
Proof.
  intros Hread. rewrite (extractor_missing w Hread). split; reflexivity.
Qed.

(** C5, as amended.  The Extractor selects exactly the elements whose tag
    name, the qualified name with its prefix, is [loc], in document order;
    the namespace of an element plays no part. *)
Theorem C5_selects_by_tag_name (doc : Document) :
  getElementsByTagName "loc" doc
  = List.filter (hasTagName "loc") (descendants doc) /\
  (forall n, hasTagName "loc" n = true <->
             exists ns attrs cs, n = Element "loc" ns attrs cs).
Proof.
  split.
  - apply getElementsByTagName_filter.
  - intros n. apply hasTagName_loc_iff.
Qed.

(** C6. When no element of the document is named [loc] the Extractor completes,
    writes the empty string to the output file and reports a count of 0. *)
Theorem C6_no_loc_elements (w : World) (s : string) (doc : Document) :
  files w !! "sitemap.xml" = Some s ->
  parseFromString s = Returns doc ->
  existsb (hasTagName "loc") (descendants doc) = false ->
  (runExtractor w).2 = inr tt /\
  files (runExtractor w).1 = <["angular-docs-urls.txt" := EmptyString]> (files w) /\
  console (runExtractor w).1 = console w ++ ["Extracted 0 URLs from the sitemap"].
Proof.
  intros Hread Hparse Hnone.
  destruct (extractor_success w s doc Hread Hparse) as (Hok & Hfiles & Hlog & _).
  rewrite getElementsByTagName_filter, (filter_existsb_false _ _ Hnone)
    in Hfiles, Hlog.
  auto.
Qed.

(** C7. Every [loc] element contributes its text content, unchanged, at
    its own position of the written list, whatever that text is (empty
    and blank included): the list has one entry per [loc] element of the
    document and nothing is trimmed, checked or dropped. *)
Theorem C7_loc_text_kept_verbatim
    (w : World) (s : string) (doc : Document) (i : nat) (n : Node) :
  files w !! "sitemap.xml" = Some s ->
  parseFromString s = Returns doc ->
  List.filter (hasTagName "loc") (descendants doc) !! i = Some n ->
  exists urls : list string,
    (runExtractor w).2 = inr tt /\
    files (runExtractor w).1 !! "angular-docs-urls.txt" = Some (String.concat LF urls) /\
    length urls = length (List.filter (hasTagName "loc") (descendants doc)) /\
    urls !! i = Some (textContent n).
Proof.
  intros Hread Hparse Hn.
  destruct (extractor_success w s doc Hread Hparse) as (Hok & Hfiles & _).
  rewrite <- getElementsByTagName_filter in *.
  exists (map textContent (getElementsByTagName "loc" doc)).
  split; [exact Hok |]. split.
  - rewrite Hfiles. apply lookup_insert_eq.
  - split; [apply length_map |]. rewrite list_lookup_fmap, Hn. reflexivity.
Qed.

(** C8. Round trip: when the input file parses to the minimal sitemap
    document built from K strings, the Extractor collects exactly those K
    strings in their order, writes them joined by line feeds and reports
    K. *)
Theorem C8_round_trip (w : World) (s : string) (urls : list string) :
  files w !! "sitemap.xml" = Some s ->
  parseFromString s = Returns (build_sitemap urls) ->
  extract_urls (getElementsByTagName "loc" (build_sitemap urls)) = urls /\
  (runExtractor w).2 = inr tt /\
  files (runExtractor w).1 !! "angular-docs-urls.txt" = Some (String.concat LF urls) /\
  console (runExtractor w).1
  = console w ++ ["Extracted " +:+ pretty (length urls) +:+ " URLs from the sitemap"].
Proof.
  intros Hread Hparse.
  destruct (extractor_success w s _ Hread Hparse) as (Hok & Hfiles & Hlog & _).
  rewrite build_sitemap_loc_texts in Hfiles, Hlog.
  split; [rewrite extract_urls_map; apply build_sitemap_loc_texts |].
  split; [exact Hok |]. split; [| exact Hlog].
  rewrite Hfiles. apply lookup_insert_eq.
Qed.

(** C9. The outcome of the Extractor and the content of its output file
    depend on the content of the input file only: two runs that find the
    same input content end alike and leave the same output file, the
    input file stays as it was, and a second run right after the first
    leaves the file system as the first left it. *)
Theorem C9_output_depends_on_input_only (w1 w2 : World) (s : string) :
  files w1 !! "sitemap.xml" = Some s ->
  files w2 !! "sitemap.xml" = Some s ->
  (runExtractor w1).2 = (runExtractor w2).2 /\
  ((runExtractor w1).2 = inr tt ->
   files (runExtractor w1).1 !! "angular-docs-urls.txt"
   = files (runExtractor w2).1 !! "angular-docs-urls.txt" /\
   files (runExtractor w1).1 !! "sitemap.xml" = Some s /\
   (runExtractor (runExtractor w1).1).2 = inr tt /\
   files (runExtractor (runExtractor w1).1).1 = files (runExtractor w1).1).
Proof.
  intros H1 H2.
  destruct (parseFromString s) as [doc | |] eqn:Hparse.
  - destruct (extractor_success w1 s doc H1 Hparse) as (Hok1 & Hf1 & _).
    destruct (extractor_success w2 s doc H2 Hparse) as (Hok2 & Hf2 & _).
    split; [congruence |]. intros _.
    assert (Hin : files (runExtractor w1).1 !! "sitemap.xml" = Some s).
    { rewrite Hf1, lookup_insert_ne by (symmetry; apply in_out_differ).
      exact H1. }
    destruct (extractor_success _ s doc Hin Hparse) as (Hok3 & Hf3 & _).
    repeat split; try assumption.
    + rewrite Hf1, Hf2, !lookup_insert_eq. reflexivity.
    + rewrite Hf3, Hf1. apply insert_insert_eq.
  - rewrite (extractor_undefined w1 s H1 Hparse),
            (extractor_undefined w2 s H2 Hparse).
    split; [reflexivity | discriminate].
  - rewrite (extractor_rejected w1 s H1 Hparse),
            (extractor_rejected w2 s H2 Hparse).
    split; [reflexivity | discriminate].
Qed.

(** ** The whole program *)

Lemma history_record (a : Action) (w : World) :
  history (record a w) = history w ++ [a].
Proof. reflexivity. Qed.

Lemma history_listeners (event : string) (p : Payload)
    (ls : list (string * Listener)) (w : World) :
  history (fold_left
             (fun w' l => if String.eqb (fst l) event then print (snd l p) w'
                          else w') ls w)
  = history w.
Proof.
  revert w. induction ls as [| [name l] ls IH]; intros w; [reflexivity |].
  cbn [fold_left fst snd]. rewrite IH. now destruct (name =? event)%string.
Qed.

Lemma history_emit (event : string) (p : Payload) (w : World) :
  history (emit event p w) = history w ++ [Emit event].
Proof. unfold emit. now rewrite history_listeners. Qed.

Lemma history_deliver (c : Crawl) (w : World) :
  exists tail, history (deliver c w) = history w ++ tail.
Proof.
  unfold deliver. destruct (running (generator w)).
  - assert (Hev : forall es w0, exists tail,
               history (fold_left (fun w' e => emit (eventName e) (eventPayload e) w')
                                  es w0) = history w0 ++ tail).
    { induction es as [| e es IH]; intros w0; simpl.
      - exists []. now rewrite app_nil_r.
      - destruct (IH (emit (eventName e) (eventPayload e) w0)) as [tail Ht].
        rewrite Ht, history_emit, <- app_assoc. eauto. }
    destruct (Hev (events c) w) as [tail Ht].
    destruct (sitemap c) as [content |].
    + rewrite history_emit. simpl. rewrite Ht, <- !app_assoc. eauto.
    + eauto.
  - exists []. now rewrite app_nil_r.
Qed.

(** When [start] is called the generator holds the four listeners, in
    the order of lines 10-24. *)
Lemma producer_listeners (fs : gmap string string) :
  listeners (generator (producer (boot fs)).1)
  = [("add", on_add); ("ignore", on_ignore); ("error", on_error);
     ("done", on_done)] /\
  running (generator (producer (boot fs)).1) = true.
Proof. split; reflexivity. Qed.

Lemma main_after_producer (fs : gmap string string) :
  main parseFromString (boot fs) = runExtractor (producer (boot fs)).1 /\
  history (producer (boot fs)).1
  = [On "add"; On "ignore"; On "error"; On "done"; Start] /\
  files (producer (boot fs)).1 = fs.
Proof. repeat split. Qed.

(** In every run the file is read right after [start] returns, before
    the crawl has delivered anything. *)
Lemma extractor_reads_before_any_event (c : Crawl) (fs : gmap string string) :
  exists tail,
    history (runProgram c fs).1
    = [On "add"; On "ignore"; On "error"; On "done"; Start;
       ReadFile "sitemap.xml"] ++ tail.
Proof.
  unfold run.
  destruct (main_after_producer fs) as (-> & Hhist & Hfiles).
  set (w0 := (producer (boot fs)).1) in *.
  destruct (files w0 !! "sitemap.xml") as [s |] eqn:Hread.
  - destruct (parseFromString s) as [doc | |] eqn:Hparse.
    + destruct (extractor_success w0 s doc Hread Hparse) as (Hok & _ & _ & Hh).
      destruct (runExtractor w0) as [w1 [e | []]];
        cbn [fst snd] in Hok, Hh |- *; [discriminate |].
      destruct (history_deliver c w1) as [tail Ht].
      rewrite Ht, Hh, Hhist. simpl. eauto.
    + rewrite (extractor_undefined w0 s Hread Hparse). cbn [fst].
      rewrite history_record, Hhist. exists []. reflexivity.
    + rewrite (extractor_rejected w0 s Hread Hparse). cbn [fst].
      rewrite history_record, Hhist. exists []. reflexivity.
  - rewrite (extractor_missing w0 Hread). cbn [fst].
    rewrite history_record, Hhist. exists []. reflexivity.
Qed.

Lemma extractor_generator (w : World) :
  generator (runExtractor w).1 = generator w.
Proof.
  unfold extractor, bind, readFileSync, DOMParser_parseFromString.
  destruct (files w !! "sitemap.xml") as [s |]; [| reflexivity].
  destruct (parseFromString s); reflexivity.
Qed.

(** A run is the top-level code followed, if it completes, by the
    delivery of the crawl. *)
Lemma run_unfold (c : Crawl) (fs : gmap string string) :
  runProgram c fs
  = match (runExtractor (producer (boot fs)).1).2 with
    | inr _ => (deliver c (runExtractor (producer (boot fs)).1).1, None)
    | inl e => ((runExtractor (producer (boot fs)).1).1, Some e)
    end.
Proof.
  unfold run.
  destruct (main_after_producer fs) as (-> & _ & _).
  now destruct (runExtractor (producer (boot fs)).1) as [w1 [e | u]].
Qed.

(** The generator holds the four listeners at the end of every run. *)
Lemma run_listeners (c : Crawl) (fs : gmap string string) :
  listeners (generator (runProgram c fs).1) = registered.
Proof.
  rewrite run_unfold.
  destruct (runExtractor (producer (boot fs)).1).2; cbn [fst];
    rewrite ?deliver_generator, extractor_generator;
    apply producer_listeners.
Qed.

(** Whether the top-level code completes does not depend on the crawl. *)
Lemma run_outcome_any_crawl (c c' : Crawl) (fs : gmap string string) :
  (runProgram c fs).2 = None -> (runProgram c' fs).2 = None.
Proof.
  rewrite !run_unfold.
  now destruct (runExtractor (producer (boot fs)).1).2.
Qed.

(** The worlds in which the events of a crawl are emitted: event [n] is
    emitted in the world that the run of the crawl cut before it ends in,
    and [done] in the world in which the sitemap has just been
    finalized. *)
Lemma emission_worlds (c : Crawl) (fs : gmap string string) :
  (runProgram c fs).2 = None ->
  (forall n e, events c !! n = Some e ->
     (runProgram (upto (S n) c) fs).1
     = emit (eventName e) (eventPayload e) (runProgram (upto n c) fs).1) /\
  (forall content, sitemap c = Some content ->
     (runProgram c fs).1
     = emit "done" NoArg
         (finalize "sitemap.xml" content
            (runProgram (upto (length (events c)) c) fs).1)).
Proof.
  intros Hdone.
  assert (Hrun : running (generator (runExtractor (producer (boot fs)).1).1)
                 = true)
    by (rewrite extractor_generator; apply producer_listeners).
  assert (Hany : forall c', (runProgram c' fs).1
                            = deliver c' (runExtractor (producer (boot fs)).1).1).
  { intros c'. rewrite run_unfold in *.
    now destruct (runExtractor (producer (boot fs)).1).2. }
  split.
  - intros n e Hn. rewrite !Hany. unfold deliver, upto. rewrite Hrun.
    cbn [events sitemap]. rewrite (take_S_r _ _ _ Hn), fold_left_app.
    reflexivity.
  - intros content Hmap. rewrite !Hany. unfold deliver, upto. rewrite Hrun, Hmap.
    cbn [events sitemap]. now rewrite firstn_all.
Qed.

(** C10. In every run, whatever comes at or after [generator.start()] in
    the history (the call itself or any event the crawl emits) comes after
    the registration of all four listeners.  [start] is called in a world
    whose generator already holds the four listeners of lines 10-24, and in
    the world in which any event of the crawl is emitted, [done] included,
    the generator still holds them, the listener of that event among
    them. *)
Theorem C10_listeners_registered_before_start
    (c : Crawl) (fs : gmap string string)
    (pre post : list Action) (a : Action) :
  history (runProgram c fs).1 = pre ++ a :: post ->
  (a = Start \/ exists event, a = Emit event) ->
  (In (On "add") pre /\ In (On "ignore") pre /\
   In (On "error") pre /\ In (On "done") pre) /\
  (producer (boot fs) = generator_start (registration (boot fs)).1 /\
   listeners (generator (registration (boot fs)).1) = registered) /\
  (forall n e, events c !! n = Some e -> (runProgram c fs).2 = None ->
     (runProgram (upto (S n) c) fs).1
     = emit (eventName e) (eventPayload e) (runProgram (upto n c) fs).1 /\
     listeners (generator (runProgram (upto n c) fs).1) = registered /\
     exists l, In (eventName e, l)
                  (listeners (generator (runProgram (upto n c) fs).1))) /\
  (forall content, sitemap c = Some content -> (runProgram c fs).2 = None ->
     (runProgram c fs).1
     = emit "done" NoArg
         (finalize "sitemap.xml" content
            (runProgram (upto (length (events c)) c) fs).1) /\
     listeners (generator
                  (finalize "sitemap.xml" content
                     (runProgram (upto (length (events c)) c) fs).1))
     = registered).
Proof.
  intros Hsplit Ha. split; [| split; [| split]].
  - destruct (extractor_reads_before_any_event c fs) as [tail Hhist].
    rewrite Hhist in Hsplit.
    do 4 (destruct pre as [| ? pre];
          [simpl in Hsplit; injection Hsplit as <- _;
           destruct Ha as [Ha | [ev Ha]]; discriminate Ha |
           simpl in Hsplit; injection Hsplit as <- Hsplit]).
    simpl. tauto.
  - split; reflexivity.
  - intros n e Hn Hdone.
    destruct (emission_worlds c fs Hdone) as [Hstep _].
    rewrite (run_listeners (upto n c) fs).
    split; [exact (Hstep n e Hn) |]. split; [reflexivity |].
    destruct e; simpl; eauto 6.
  - intros content Hmap Hdone.
    destruct (emission_worlds c fs Hdone) as [_ Hlast].
    split; [exact (Hlast content Hmap) |].
    cbn [finalize record set_files generator].
    apply run_listeners.
Qed.

End Properties.

(** ** The results on concrete files *)

(** The scenario of three [url] entries. *)
Lemma C1_three_urls :
  (extractor XmlReader.parse (boot (disk three_urls_xml))).2 = inr tt /\
  files (extractor XmlReader.parse (boot (disk three_urls_xml))).1
  = <["angular-docs-urls.txt" :=
        "https://angular.dev/" +:+ LF +:+ "https://angular.dev/guide/" +:+ LF
        +:+ "https://angular.dev/api/"]> (disk three_urls_xml) /\
  console (extractor XmlReader.parse (boot (disk three_urls_xml))).1
  = ["Extracted 3 URLs from the sitemap"].
Proof.
  exact (C1_output_is_loc_lines XmlReader.parse (boot (disk three_urls_xml))
           three_urls_xml three_urls_doc
           ltac:(vm_compute; reflexivity) ltac:(vm_compute; reflexivity)
           ltac:(vm_compute; reflexivity)).
Defined.

(** A sitemap with a repeated attribute, on which the parser throws,
    next to an older URL list. *)
Lemma C2_repeated_attribute :
  (extractor XmlReader.parse (boot (disk_with_output repeated_attribute_xml))).2
  = inl ParseError /\
  files (extractor XmlReader.parse
           (boot (disk_with_output repeated_attribute_xml))).1
  = disk_with_output repeated_attribute_xml.
Proof.
  destruct (C2_parse_error_writes_nothing XmlReader.parse
              (boot (disk_with_output repeated_attribute_xml))
              repeated_attribute_xml ltac:(vm_compute; reflexivity))
    as (Hfails & Hkeeps & _).
  split; [apply Hfails | apply Hkeeps]; vm_compute; reflexivity.
Defined.

(** The claim C2 as it is worded fails on a sitemap with an unclosed tag
    (three start tags, two end tags).  The parser recovers and returns a
    document, so the Extractor does not fail: it completes, replaces the
    older URL list by the one URL of the recovered document and reports
    it. *)
Lemma C2_unclosed_tag_overwrites :
  XmlReader.tagCounts unclosed_xml = Some (3, 2) /\
  XmlReader.read unclosed_xml = Some (Returns unclosed_doc) /\
  files (boot (disk_with_output unclosed_xml)) !! "angular-docs-urls.txt"
  = Some "https://old.example/" /\
  (extractor XmlReader.parse (boot (disk_with_output unclosed_xml))).2 = inr tt /\
  files (extractor XmlReader.parse (boot (disk_with_output unclosed_xml))).1
    !! "angular-docs-urls.txt" = Some "https://angular.dev/" /\
  console (extractor XmlReader.parse (boot (disk_with_output unclosed_xml))).1
  = ["Extracted 1 URLs from the sitemap"] /\
  ~ ((extractor XmlReader.parse (boot (disk_with_output unclosed_xml))).2
     = inl ParseError /\
     files (extractor XmlReader.parse (boot (disk_with_output unclosed_xml))).1
     = disk_with_output unclosed_xml).
Proof.
  repeat split; try (vm_compute; reflexivity).
  intros [Hfails _]. vm_compute in Hfails. discriminate Hfails.
Qed.

(** No sitemap, next to an older URL list. *)
Lemma C4_no_sitemap :
  (extractor XmlReader.parse (boot disk_without_sitemap)).2
  = inl (NotFoundError "sitemap.xml") /\
  files (extractor XmlReader.parse (boot disk_without_sitemap)).1
  = disk_without_sitemap.
Proof.
  exact (C4_missing_input_writes_nothing XmlReader.parse
           (boot disk_without_sitemap) ltac:(vm_compute; reflexivity)).
Defined.

(** The claim C5 as it is worded fails on a sitemap written with a
    prefix: [sm:loc] has the local name [loc], and is not selected; the
    Extractor writes an empty list for that file. *)
Lemma C5_prefixed_loc_not_selected :
  XmlReader.parse prefixed_xml = Returns prefixed_doc /\
  elementsByLocalName "loc" prefixed_doc
  = [Element "sm:loc" (Some sitemapNS) [] [Text "https://angular.dev/"]] /\
  getElementsByTagName "loc" prefixed_doc = [] /\
  getElementsByTagName "loc" prefixed_doc <> elementsByLocalName "loc" prefixed_doc /\
  files (extractor XmlReader.parse (boot (disk prefixed_xml))).1
    !! "angular-docs-urls.txt" = Some EmptyString.
Proof.
  repeat split; try (vm_compute; reflexivity).
  vm_compute. discriminate.
Qed.

(** An empty [urlset]. *)
Lemma C6_empty_urlset :
  (extractor XmlReader.parse (boot (disk no_loc_xml))).2 = inr tt /\
  files (extractor XmlReader.parse (boot (disk no_loc_xml))).1
  = <["angular-docs-urls.txt" := EmptyString]> (disk no_loc_xml) /\
  console (extractor XmlReader.parse (boot (disk no_loc_xml))).1
  = ["Extracted 0 URLs from the sitemap"].
Proof.
  exact (C6_no_loc_elements XmlReader.parse (boot (disk no_loc_xml))
           no_loc_xml no_loc_doc
           ltac:(vm_compute; reflexivity) ltac:(vm_compute; reflexivity)
           ltac:(vm_compute; reflexivity)).
Defined.

(** Three entries, the second blank and the third empty. *)
Lemma C7_blank_loc :
  exists urls : list string,
    (extractor XmlReader.parse (boot (disk blank_loc_xml))).2 = inr tt /\
    files (extractor XmlReader.parse (boot (disk blank_loc_xml))).1
      !! "angular-docs-urls.txt" = Some (String.concat LF urls) /\
    length urls = 3 /\
    urls !! 1 = Some "   ".
Proof.
  exact (C7_loc_text_kept_verbatim XmlReader.parse (boot (disk blank_loc_xml))
           blank_loc_xml blank_loc_doc 1 (Element "loc" None [] [Text "   "])
           ltac:(vm_compute; reflexivity) ltac:(vm_compute; reflexivity)
           ltac:(vm_compute; reflexivity)).
Defined.

(** Two URLs, one with an ampersand. *)
Lemma C8_two_urls :
  extract_urls
    (getElementsByTagName "loc"
       (build_sitemap ["https://angular.dev/";
                       "https://angular.dev/guide/?a=1&b=2"]))
  = ["https://angular.dev/"; "https://angular.dev/guide/?a=1&b=2"] /\
  (extractor XmlReader.parse (boot (disk minimal_xml))).2 = inr tt /\
  files (extractor XmlReader.parse (boot (disk minimal_xml))).1
    !! "angular-docs-urls.txt"
  = Some ("https://angular.dev/" +:+ LF +:+ "https://angular.dev/guide/?a=1&b=2") /\
  console (extractor XmlReader.parse (boot (disk minimal_xml))).1
  = ["Extracted 2 URLs from the sitemap"].
Proof.
  exact (C8_round_trip XmlReader.parse (boot (disk minimal_xml)) minimal_xml
           ["https://angular.dev/"; "https://angular.dev/guide/?a=1&b=2"]
           ltac:(vm_compute; reflexivity) ltac:(vm_compute; reflexivity)).
Defined.

(** The same sitemap in a clean directory and next to an older URL
    list. *)
Lemma C9_old_output_overwritten :
  (extractor XmlReader.parse (boot (disk three_urls_xml))).2
  = (extractor XmlReader.parse (boot (disk_with_output three_urls_xml))).2 /\
  ((extractor XmlReader.parse (boot (disk three_urls_xml))).2 = inr tt ->
   files (extractor XmlReader.parse (boot (disk three_urls_xml))).1
     !! "angular-docs-urls.txt"
   = files (extractor XmlReader.parse (boot (disk_with_output three_urls_xml))).1
       !! "angular-docs-urls.txt" /\
   files (extractor XmlReader.parse (boot (disk three_urls_xml))).1
     !! "sitemap.xml" = Some three_urls_xml /\
   (extractor XmlReader.parse
      (extractor XmlReader.parse (boot (disk three_urls_xml))).1).2 = inr tt /\
   files (extractor XmlReader.parse
            (extractor XmlReader.parse (boot (disk three_urls_xml))).1).1
   = files (extractor XmlReader.parse (boot (disk three_urls_xml))).1).
Proof.
  exact (C9_output_depends_on_input_only XmlReader.parse
           (boot (disk three_urls_xml)) (boot (disk_with_output three_urls_xml))
           three_urls_xml
           ltac:(vm_compute; reflexivity) ltac:(vm_compute; reflexivity)).
Defined.

(** The first [add] event of a small crawl. *)
Lemma C10_first_event :
  In (On "add") [On "add"; On "ignore"; On "error"; On "done"; Start;
                 ReadFile "sitemap.xml"; WriteFile "angular-docs-urls.txt"] /\
  In (On "ignore") [On "add"; On "ignore"; On "error"; On "done"; Start;
                    ReadFile "sitemap.xml"; WriteFile "angular-docs-urls.txt"] /\
  In (On "error") [On "add"; On "ignore"; On "error"; On "done"; Start;
                   ReadFile "sitemap.xml"; WriteFile "angular-docs-urls.txt"] /\
  In (On "done") [On "add"; On "ignore"; On "error"; On "done"; Start;
                  ReadFile "sitemap.xml"; WriteFile "angular-docs-urls.txt"].
Proof.
  exact (proj1
           (C10_listeners_registered_before_start XmlReader.parse small_crawl
              (disk stale_xml)
              [On "add"; On "ignore"; On "error"; On "done"; Start;
               ReadFile "sitemap.xml"; WriteFile "angular-docs-urls.txt"]
              [Finalize "sitemap.xml"; Emit "done"] (Emit "add")
              ltac:(vm_compute; reflexivity)
              (or_intror (ex_intro _ "add" eq_refl)))).
Defined.

(** C3, where the code departs from the claim.  In a directory that holds
    the sitemap of an earlier crawl, the program reads that file right
    after [generator.start()] returns and writes the old URL list, before
    the crawl emits its first event and long before [done]; the sitemap the
    crawl then finalizes is never extracted.  In an empty directory the read
    throws, the process ends, and the crawl is never delivered. *)
Theorem C3_extractor_runs_before_crawl_ends :
  history (run XmlReader.parse small_crawl (disk stale_xml)).1
  = [On "add"; On "ignore"; On "error"; On "done"; Start;
     ReadFile "sitemap.xml"; WriteFile "angular-docs-urls.txt";
     Emit "add"; Finalize "sitemap.xml"; Emit "done"] /\
  files (run XmlReader.parse small_crawl (disk stale_xml)).1
    !! "angular-docs-urls.txt" = Some "https://old.example/" /\
  files (run XmlReader.parse small_crawl (disk stale_xml)).1
    !! "sitemap.xml" = Some fresh_xml /\
  (run XmlReader.parse small_crawl ∅).2 = Some (NotFoundError "sitemap.xml") /\
  history (run XmlReader.parse small_crawl ∅).1
  = [On "add"; On "ignore"; On "error"; On "done"; Start;
     ReadFile "sitemap.xml"].
Proof. repeat split; vm_compute; reflexivity. Qed.

(** ** Further properties of the script *)

(** *** Joining with line feeds and reading the lines back *)

Lemma split_on_absent (sep : ascii) (s : string) :
  occurs sep s = false -> split_on sep s = [s].
Proof.
  induction s as [| c s IH]; simpl; [reflexivity |].
  intros H. apply orb_false_iff in H as [Hc Hs].
  rewrite Hc, (IH Hs). reflexivity.
Qed.

Lemma split_on_app (sep : ascii) (a b : string) :
  occurs sep a = false ->
  split_on sep (a +:+ String sep b) = a :: split_on sep b.
Proof.
  induction a as [| c a IH]; simpl.
  - intros _. now rewrite Ascii.eqb_refl.
  - intros H. apply orb_false_iff in H as [Hc Ha].
    rewrite Hc, (IH Ha). reflexivity.
Qed.

Lemma split_on_concat (urls : list string) :
  urls <> [] ->
  forallb (fun u => negb (occurs "010" u)) urls = true ->
  split_on "010" (String.concat LF urls) = urls.
Proof.
  induction urls as [| u [| v rest] IH]; intros Hne Hall; [congruence | |].
  - simpl in *. apply andb_true_iff in Hall as [Hu _].
    apply negb_true_iff in Hu. now apply split_on_absent.
  - cbn [forallb] in Hall. apply andb_true_iff in Hall as [Hu Hrest].
    apply negb_true_iff in Hu.
    change (String.concat LF (u :: v :: rest))
      with (u +:+ String "010" (String.concat LF (v :: rest))).
    rewrite (split_on_app _ _ _ Hu), IH; [reflexivity | discriminate | exact Hrest].
Qed.

Lemma concat_empty_iff (urls : list string) :
  String.concat LF urls = EmptyString <-> urls = [] \/ urls = [EmptyString].
Proof.
  split.
  - destruct urls as [| u [| v rest]]; simpl; [auto | intros ->; auto |].
    destruct u; discriminate.
  - intros [-> | ->]; reflexivity.
Qed.

Section Extras.

Variable parseFromString : string -> ParseOutcome.

Local Abbreviation runExtractor := (extractor parseFromString).
Local Abbreviation runProgram := (run parseFromString).

(** The world a successful run of lines 28-45 ends in. *)
Lemma extractor_success_world (w : World) (s : string) (doc : Document) :
  files w !! "sitemap.xml" = Some s ->
  parseFromString s = Returns doc ->
  runExtractor w
  = (print ("Extracted " +:+ pretty (length (loc_texts doc))
            +:+ " URLs from the sitemap")
       (record (WriteFile "angular-docs-urls.txt")
          (set_files (<["angular-docs-urls.txt" :=
                          String.concat LF (loc_texts doc)]> (files w))
             (record (ReadFile "sitemap.xml") w))),
     inr tt).
Proof.
  intros Hread Hparse.
  unfold extractor, bind, readFileSync, DOMParser_parseFromString.
  rewrite Hread, Hparse. cbn -[pretty String.concat].
  unfold loc_texts.
  rewrite extract_urls_map, getElementsByTagName_filter. reflexivity.
Qed.

(** The four ways lines 28-45 can end. *)
Lemma extractor_cases (w : World) :
  (files w !! "sitemap.xml" = None /\
   runExtractor w = (record (ReadFile "sitemap.xml") w,
                     inl (NotFoundError "sitemap.xml"))) \/
  (exists s, files w !! "sitemap.xml" = Some s /\ parseFromString s = Throws /\
             runExtractor w = (record (ReadFile "sitemap.xml") w, inl ParseError)) \/
  (exists s, files w !! "sitemap.xml" = Some s /\
             parseFromString s = ReturnsUndefined /\
             runExtractor w = (record (ReadFile "sitemap.xml") w, inl TypeError)) \/
  (exists s doc, files w !! "sitemap.xml" = Some s /\
                 parseFromString s = Returns doc /\
                 (runExtractor w).2 = inr tt).
Proof.
  destruct (files w !! "sitemap.xml") as [s |] eqn:Hread.
  - destruct (parseFromString s) as [doc | |] eqn:Hparse.
    + right; right; right. exists s, doc.
      rewrite (extractor_success_world w s doc Hread Hparse). auto.
    + right; right; left. exists s.
      repeat split; [exact Hparse |].
      exact (extractor_undefined parseFromString w s Hread Hparse).
    + right; left. exists s.
      repeat split; [exact Hparse |].
      exact (extractor_rejected parseFromString w s Hread Hparse).
  - left. split; [reflexivity | now apply extractor_missing].
Qed.

(** X1. Whatever document the parser returns, sitemap or not, the
    Extractor writes the text contents of all elements named [loc], at any
    depth and in document order, joined by line feeds, reports their
    number, and changes no other file. *)
Theorem X1_output_for_any_document (w : World) (s : string) (doc : Document) :
  files w !! "sitemap.xml" = Some s ->
  parseFromString s = Returns doc ->
  (runExtractor w).2 = inr tt /\
  files (runExtractor w).1
  = <["angular-docs-urls.txt" := String.concat LF (loc_texts doc)]> (files w) /\
  console (runExtractor w).1
  = console w ++ ["Extracted " +:+ pretty (length (loc_texts doc))
                  +:+ " URLs from the sitemap"].
Proof.
  intros Hread Hparse.
  rewrite (extractor_success_world w s doc Hread Hparse). auto.
Qed.

(** X2. However the Extractor ends, every file other than
    [angular-docs-urls.txt] is as it was before: the sitemap is only
    read, and nothing is created or removed beside the output file. *)
Theorem X2_other_files_untouched (w : World) (path : string) :
  path <> "angular-docs-urls.txt" ->
  files (runExtractor w).1 !! path = files w !! path.
Proof.
  intros Hpath.
  destruct (extractor_cases w)
    as [[_ ->] | [(s & _ & _ & ->) | [(s & _ & _ & ->) |
                                      (s & doc & Hread & Hparse & _)]]];
    try reflexivity.
  rewrite (extractor_success_world w s doc Hread Hparse). cbn [fst].
  cbn. now rewrite lookup_insert_ne by congruence.
Qed.


(** X4. When there is at least one [loc] element and no [loc] text holds
    a line feed, the output file read back line by line gives exactly the
    [loc] texts: line i is the text of the i-th [loc] element, and there
    is no line before, between or after them. *)
Theorem X4_lines_read_back (w : World) (s : string) (doc : Document) :
  files w !! "sitemap.xml" = Some s ->
  parseFromString s = Returns doc ->
  loc_texts doc <> [] ->
  forallb (fun u => negb (occurs "010" u)) (loc_texts doc) = true ->
  exists content,
    files (runExtractor w).1 !! "angular-docs-urls.txt" = Some content /\
    split_on "010" content = loc_texts doc.
Proof.
  intros Hread Hparse Hne Hall.
  exists (String.concat LF (loc_texts doc)). split.
  - rewrite (extractor_success_world w s doc Hread Hparse). cbn.
    apply lookup_insert_eq.
  - now apply split_on_concat.
Qed.

(** X5. The output file comes out empty in exactly two cases: the
    document has no [loc] element, or it has a single one whose text is
    empty.  The file alone does not tell the two apart. *)
Theorem X5_empty_output (w : World) (s : string) (doc : Document) :
  files w !! "sitemap.xml" = Some s ->
  parseFromString s = Returns doc ->
  (files (runExtractor w).1 !! "angular-docs-urls.txt" = Some EmptyString <->
   loc_texts doc = [] \/ loc_texts doc = [EmptyString]).
Proof.
  intros Hread Hparse.
  rewrite (extractor_success_world w s doc Hread Hparse). cbn.
  rewrite lookup_insert_eq, <- concat_empty_iff.
  split; [intros H; now injection H | intros ->; reflexivity].
Qed.

(** *** One run of the program, and the next *)

(** A run whose top-level code completes: the crawl is delivered to the
    four listeners after the Extractor has finished. *)
Lemma run_completes (c : Crawl) (fs : gmap string string)
    (s : string) (doc : Document) :
  fs !! "sitemap.xml" = Some s ->
  parseFromString s = Returns doc ->
  (runProgram c fs).2 = None /\
  console (runProgram c fs).1
  = ["Extracted " +:+ pretty (length (loc_texts doc)) +:+ " URLs from the sitemap"]
    ++ map logLine (events c) ++ doneLines c /\
  files (runProgram c fs).1
  = match sitemap c with
    | Some content =>
        <["sitemap.xml" := content]>
          (<["angular-docs-urls.txt" := String.concat LF (loc_texts doc)]> fs)
    | None => <["angular-docs-urls.txt" := String.concat LF (loc_texts doc)]> fs
    end.
Proof.
  intros Hread Hparse. unfold run.
  destruct (main_after_producer parseFromString fs) as (-> & _ & Hfiles).
  destruct (producer_listeners fs) as [Hls Hrun].
  set (w0 := (producer (boot fs)).1) in *.
  rewrite <- Hfiles in Hread.
  rewrite (extractor_success_world w0 s doc Hread Hparse).
  cbn [fst snd]. split; [reflexivity |].
  match goal with
  | |- context [deliver c ?w] =>
      destruct (deliver_running c w Hrun Hls) as [-> ->]
  end.
  cbn [console files print record set_files]. rewrite Hfiles.
  split; reflexivity.
Qed.

(** A run whose top-level code throws: the process ends there. *)
Lemma run_fails (c : Crawl) (fs : gmap string string) (e : Exception) :
  (runProgram c fs).2 = Some e ->
  runProgram c fs
  = (record (ReadFile "sitemap.xml") (producer (boot fs)).1, Some e) /\
  (runExtractor (producer (boot fs)).1).2 = inl e.
Proof.
  unfold run.
  destruct (main_after_producer parseFromString fs) as (-> & _ & _).
  destruct (extractor_cases (producer (boot fs)).1)
    as [[_ ->] | [(s & _ & _ & ->) | [(s & _ & _ & ->) |
                                      (s & doc & _ & _ & Hok)]]];
    cbn [fst snd]; try (intros He; injection He as <-; split; reflexivity).
  destruct (runExtractor (producer (boot fs)).1) as [w1 [e' | []]];
    cbn [snd] in *; [discriminate Hok | discriminate].
Qed.

(** X6. In a run whose top-level code completes, the console shows the
    Extractor's summary first, then one line per crawl event in the order
    of the events ([Added:], [Ignored:] or [Error:] with the URL and, for
    an error, the code in parentheses), and last, if the crawl gets to its
    end, the completion line, once. *)
Theorem X6_console_of_a_run (c : Crawl) (fs : gmap string string)
    (s : string) (doc : Document) :
  fs !! "sitemap.xml" = Some s ->
  parseFromString s = Returns doc ->
  console (runProgram c fs).1
  = ["Extracted " +:+ pretty (length (loc_texts doc)) +:+ " URLs from the sitemap"]
    ++ map logLine (events c) ++ doneLines c.
Proof.
  intros Hread Hparse.
  now destruct (run_completes c fs s doc Hread Hparse) as (_ & H & _).
Qed.

(** X7. The URL list a run leaves behind, and whether the run fails, do
    not depend on the crawl that the run starts: two runs from the same
    directory end alike and leave the same [angular-docs-urls.txt],
    whatever their crawls find. *)
Theorem X7_url_list_ignores_the_crawl (c1 c2 : Crawl) (fs : gmap string string) :
  (runProgram c1 fs).2 = (runProgram c2 fs).2 /\
  files (runProgram c1 fs).1 !! "angular-docs-urls.txt"
  = files (runProgram c2 fs).1 !! "angular-docs-urls.txt".
Proof.
  destruct (extractor_cases (producer (boot fs)).1)
    as [[Hread Hex] | [(s & Hread & Hparse & Hex) |
                       [(s & Hread & Hparse & Hex) |
                        (s & doc & Hread & Hparse & _)]]].
  - unfold run.
    destruct (main_after_producer parseFromString fs) as (-> & _ & _).
    rewrite Hex. split; reflexivity.
  - unfold run.
    destruct (main_after_producer parseFromString fs) as (-> & _ & _).
    rewrite Hex. split; reflexivity.
  - unfold run.
    destruct (main_after_producer parseFromString fs) as (-> & _ & _).
    rewrite Hex. split; reflexivity.
  - destruct (main_after_producer parseFromString fs) as (_ & _ & Hfiles).
    rewrite Hfiles in Hread.
    destruct (run_completes c1 fs s doc Hread Hparse) as (-> & _ & ->).
    destruct (run_completes c2 fs s doc Hread Hparse) as (-> & _ & ->).
    split; [reflexivity |].
    destruct (sitemap c1), (sitemap c2);
      rewrite ?(lookup_insert_ne _ "sitemap.xml" "angular-docs-urls.txt")
        by discriminate;
      reflexivity.
Qed.

(** X8. The sitemap that the crawl of one run finalizes is extracted by
    the next run: after a run that completes and whose crawl gets to its
    end, a second run from the directory it leaves completes too and
    writes the [loc] texts of that sitemap, whatever the second crawl
    finds. *)
Theorem X8_next_run_extracts_this_crawl
    (c1 c2 : Crawl) (fs : gmap string string) (x : string) (doc : Document) :
  (runProgram c1 fs).2 = None ->
  sitemap c1 = Some x ->
  parseFromString x = Returns doc ->
  (runProgram c2 (files (runProgram c1 fs).1)).2 = None /\
  files (runProgram c2 (files (runProgram c1 fs).1)).1 !! "angular-docs-urls.txt"
  = Some (String.concat LF (loc_texts doc)).
Proof.
  intros Hdone Hmap Hparse.
  assert (Hin : files (runProgram c1 fs).1 !! "sitemap.xml" = Some x).
  { destruct (extractor_cases (producer (boot fs)).1)
      as [[_ Hex] | [(s & _ & _ & Hex) | [(s & _ & _ & Hex) |
                                          (s & doc0 & Hread & Hparse0 & _)]]].
    - revert Hdone. unfold run.
      destruct (main_after_producer parseFromString fs) as (-> & _ & _).
      rewrite Hex. discriminate.
    - revert Hdone. unfold run.
      destruct (main_after_producer parseFromString fs) as (-> & _ & _).
      rewrite Hex. discriminate.
    - revert Hdone. unfold run.
      destruct (main_after_producer parseFromString fs) as (-> & _ & _).
      rewrite Hex. discriminate.
    - destruct (main_after_producer parseFromString fs) as (_ & _ & Hfiles).
      rewrite Hfiles in Hread.
      destruct (run_completes c1 fs s doc0 Hread Hparse0) as (_ & _ & ->).
      rewrite Hmap. apply lookup_insert_eq. }
  destruct (run_completes c2 _ x doc Hin Hparse) as (-> & _ & ->).
  split; [reflexivity |].
  destruct (sitemap c2);
    rewrite ?(lookup_insert_ne _ "sitemap.xml" "angular-docs-urls.txt")
      by discriminate;
    apply lookup_insert_eq.
Qed.

(** X9. When the top-level code throws (no [sitemap.xml], or one for
    which the parser throws or returns no document), the run changes no
    file and prints nothing, and none
    of the events of the crawl it started reaches a listener: the history
    ends with the failed read. *)
Theorem X9_failed_run_delivers_nothing
    (c : Crawl) (fs : gmap string string) (e : Exception) :
  (runProgram c fs).2 = Some e ->
  files (runProgram c fs).1 = fs /\
  console (runProgram c fs).1 = [] /\
  history (runProgram c fs).1
  = [On "add"; On "ignore"; On "error"; On "done"; Start;
     ReadFile "sitemap.xml"].
Proof.
  intros He. destruct (run_fails c fs e He) as [-> _].
  repeat split.
Qed.

End Extras.

(** *** The further properties on concrete files *)

(** A sitemap index with [loc] elements at two depths, one URL twice. *)
Lemma X1_sitemap_index :
  (extractor XmlReader.parse (boot (disk index_xml))).2 = inr tt /\
  files (extractor XmlReader.parse (boot (disk index_xml))).1
  = <["angular-docs-urls.txt" :=
        "https://angular.dev/a.xml" +:+ LF +:+ "https://angular.dev/b.xml"
        +:+ LF +:+ "https://angular.dev/a.xml"]> (disk index_xml) /\
  console (extractor XmlReader.parse (boot (disk index_xml))).1
  = ["Extracted 3 URLs from the sitemap"].
Proof.
  exact (X1_output_for_any_document XmlReader.parse (boot (disk index_xml))
           index_xml index_doc
           ltac:(vm_compute; reflexivity) ltac:(vm_compute; reflexivity)).
Defined.

(** The sitemap itself is still there after the extraction. *)
Lemma X2_sitemap_kept :
  files (extractor XmlReader.parse (boot (disk three_urls_xml))).1 !! "sitemap.xml"
  = Some three_urls_xml.
Proof.
  exact (X2_other_files_untouched XmlReader.parse (boot (disk three_urls_xml))
           "sitemap.xml" in_out_differ).
Defined.


(** The three URLs of the scenario, read back from the output file. *)
Lemma X4_three_lines :
  exists content,
    files (extractor XmlReader.parse (boot (disk three_urls_xml))).1
      !! "angular-docs-urls.txt" = Some content /\
    split_on "010" content
    = ["https://angular.dev/"; "https://angular.dev/guide/";
       "https://angular.dev/api/"].
Proof.
  exact (X4_lines_read_back XmlReader.parse (boot (disk three_urls_xml))
           three_urls_xml three_urls_doc
           ltac:(vm_compute; reflexivity) ltac:(vm_compute; reflexivity)
           ltac:(vm_compute; discriminate) ltac:(vm_compute; reflexivity)).
Defined.

(** One entry with an empty [loc]: the output file is empty. *)
Lemma X5_one_empty_loc :
  files (extractor XmlReader.parse (boot (disk one_empty_loc_xml))).1
    !! "angular-docs-urls.txt" = Some EmptyString <->
  loc_texts one_empty_loc_doc = [] \/ loc_texts one_empty_loc_doc = [EmptyString].
Proof.
  exact (X5_empty_output XmlReader.parse (boot (disk one_empty_loc_xml))
           one_empty_loc_xml one_empty_loc_doc
           ltac:(vm_compute; reflexivity) ltac:(vm_compute; reflexivity)).
Defined.

(** A crawl with two added URLs, one ignored and one failed. *)
Lemma X6_busy_crawl :
  console (run XmlReader.parse busy_crawl (disk three_urls_xml)).1
  = ["Extracted 3 URLs from the sitemap";
     "Added: https://angular.dev/";
     "Ignored: https://angular.dev/private";
     "Error: https://angular.dev/gone (404)";
     "Added: https://angular.dev/guide/";
     "Sitemap generation completed!"].
Proof.
  exact (X6_console_of_a_run XmlReader.parse busy_crawl (disk three_urls_xml)
           three_urls_xml three_urls_doc
           ltac:(vm_compute; reflexivity) ltac:(vm_compute; reflexivity)).
Defined.

(** A first run over an old sitemap, then a second run. *)
Lemma X8_second_run :
  (run XmlReader.parse small_crawl
       (files (run XmlReader.parse busy_crawl (disk stale_xml)).1)).2 = None /\
  files (run XmlReader.parse small_crawl
             (files (run XmlReader.parse busy_crawl (disk stale_xml)).1)).1
    !! "angular-docs-urls.txt"
  = Some "https://angular.dev/".
Proof.
  exact (X8_next_run_extracts_this_crawl XmlReader.parse busy_crawl small_crawl
           (disk stale_xml) fresh_xml fresh_doc
           ltac:(vm_compute; reflexivity) ltac:(vm_compute; reflexivity)
           ltac:(vm_compute; reflexivity)).
Defined.

(** A run in an empty directory. *)
Lemma X9_empty_directory :
  files (run XmlReader.parse busy_crawl empty_directory).1 = empty_directory /\
  console (run XmlReader.parse busy_crawl empty_directory).1 = [] /\
  history (run XmlReader.parse busy_crawl empty_directory).1
  = [On "add"; On "ignore"; On "error"; On "done"; Start;
     ReadFile "sitemap.xml"].
Proof.
  exact (X9_failed_run_delivers_nothing XmlReader.parse busy_crawl empty_directory
           (NotFoundError "sitemap.xml") ltac:(vm_compute; reflexivity)).
Defined.
